(** * aiohttp_client_cache.response: snapshot and replay of HTTP responses

    A shallow embedding of [src/aiohttp_client_cache/response.py]:
    the class [CachedResponse] (constructor, [__getstate__],
    [__setstate__], [request_info], [headers], [postprocess], [content],
    [is_expired], [reset]) and the class [CachedStreamReader].

    Python objects are modelled by their attribute dictionary
    ([__dict__], a finite map from attribute names to values), calls that
    can raise return a [result], and the methods that mutate [self]
    return the new object. *)

From Stdlib Require Import ZArith Lia.
From Stdlib.Strings Require Import Byte.
From stdpp Require Import base option list strings gmap.

#[local] Set Warnings "-register-all,-clear-no-such-hyp".

Local Open Scope string_scope.
Local Open Scope Z_scope.
Local Open Scope list_scope.

(** ** Exceptions and results *)

(** The exceptions that the modelled code raises, catches or lets
    through. [TransportError] stands for whatever a network read fails
    with. *)
Inductive exn :=
  | AttributeError (name : string)
  | KeyError (key : string)
  | TypeError
  | ValueError
  | AssertionError
  | RuntimeError
  | ClientConnectionError
  | TransportError (msg : string).

(** The outcome of a call: it returns, it raises, or (for a coroutine that
    awaits data on a stream that is neither filled nor closed) it stays
    suspended. *)
Inductive result (A : Type) :=
  | Returned (a : A)
  | Raised (e : exn)
  | Blocked.
Arguments Returned {A} a.
Arguments Raised {A} e.
Arguments Blocked {A}.

#[export] Instance result_ret : MRet result := λ A a, Returned a.
#[export] Instance result_bind : MBind result := λ A B f m,
  match m with
  | Returned a => f a
  | Raised e => Raised e
  | Blocked => Blocked
  end.

(** [[f(x) for x in l]] where [f] may raise: the first failure ends the
    comprehension. *)
Definition mapM {A B : Type} (f : A → result B) : list A → result (list B) :=
  fix go (l : list A) : result (list B) :=
    match l with
    | [] => Returned []
    | x :: l' => y ← f x; ys ← go l'; Returned (y :: ys)
    end.

(** ** Values *)

Definition bytes := list byte.

(** Objects bound to the transport or to the event loop. *)
Inductive handle :=
  | EventLoop
  | Session
  | Protocol
  | Connection
  | Timer
  | Task
  | Future
  | Trace
  | Callable.

(** [aiohttp.streams.StreamReader], reduced to the fields that feeding
    and reading whole buffers use. The class belongs to aiohttp; the
    repository only subclasses it. The chunks are values because
    [feed_data] stores what it is given. *)
Record StreamReaderOf (A : Type) := mkStreamReader {
  _low_water : Z;
  _high_water : Z;
  _size : Z;
  _cursor : Z;
  total_bytes : Z;
  _buffer : list A;
  _eof : bool;
  _exception : option exn;
}.
Arguments mkStreamReader {A}.
Arguments _low_water {A}.
Arguments _high_water {A}.
Arguments _size {A}.
Arguments _cursor {A}.
Arguments total_bytes {A}.
Arguments _buffer {A}.
Arguments _eof {A}.
Arguments _exception {A}.

(** [RequestInfo(url, method, headers, real_url)]. *)
Record RequestInfoOf (A : Type) := mkRequestInfo {
  ri_url : A;
  ri_method : A;
  ri_headers : A;
  ri_real_url : A;
}.
Arguments mkRequestInfo {A}.
Arguments ri_url {A}.
Arguments ri_method {A}.
Arguments ri_headers {A}.
Arguments ri_real_url {A}.

(** The Python values that the attributes of a response hold. *)
Inductive value :=
  | VNone
  | VBool (b : bool)
  | VInt (z : Z)
  | VStr (s : string)
  | VBytes (b : bytes)
  | VDatetime (t : Z)
  | VUrl (u : string)
  | VVersion (major minor : Z)
  | VHeaders (items : list (string * string))
  | VRawHeaders (items : list (bytes * bytes))
  | VCookies (items : list (string * string))
  | VDict
  | VHandle (h : handle)
  | VHandles (hs : list handle)
  | VRequestInfo (ri : RequestInfoOf value)
  | VStream (s : StreamReaderOf value).

Abbreviation stream_reader := (StreamReaderOf value).
Abbreviation request_info_t := (RequestInfoOf value).

(** Truth value of an object, as [not x], [x or y] and [if x] take it. *)
Definition truthy (v : value) : bool :=
  match v with
  | VNone => false
  | VBool b => b
  | VInt z => negb (Z.eqb z 0)
  | VStr s => negb (String.eqb s "")
  | VBytes b => negb (Nat.eqb (length b) 0)
  | VHeaders items => negb (Nat.eqb (length items) 0)
  | VRawHeaders items => negb (Nat.eqb (length items) 0)
  | VCookies items => negb (Nat.eqb (length items) 0)
  | VHandles hs => negb (Nat.eqb (length hs) 0)
  | VDict => false
  | _ => true
  end.

(** [len(x)]: defined on the sized values only. *)
Definition len (v : value) : result Z :=
  match v with
  | VStr s => Returned (Z.of_nat (String.length s))
  | VBytes b => Returned (Z.of_nat (length b))
  | VHeaders items => Returned (Z.of_nat (length items))
  | VRawHeaders items => Returned (Z.of_nat (length items))
  | VCookies items => Returned (Z.of_nat (length items))
  | VHandles hs => Returned (Z.of_nat (length hs))
  | VDict => Returned 0
  | _ => Raised TypeError
  end.

(** [b''.join(chunks)]: every chunk has to be a byte string. *)
Fixpoint join (chunks : list value) : result bytes :=
  match chunks with
  | [] => Returned []
  | VBytes b :: rest => tl ← join rest; Returned (b ++ tl)
  | _ :: _ => Raised TypeError
  end.

(** ** aiohttp.streams.StreamReader

    The base class of [CachedStreamReader]. It is aiohttp's, not the
    repository's; what follows is the part of it that the constructor of
    [CachedStreamReader] calls ([__init__], [feed_data], [feed_eof]) and
    the part that reads a whole body ([read] with its default [n = -1],
    through [readany] and [_read_nowait]), with [is_eof] and [at_eof].
    Waiters and callbacks are left out: nothing registers one here. *)
Module StreamReader.

(** [StreamReader(protocol, limit, loop=None)]. *)
Definition __init__ (limit : Z) : stream_reader :=
  {| _low_water := limit; _high_water := limit * 2;
     _size := 0; _cursor := 0; total_bytes := 0;
     _buffer := []; _eof := false; _exception := None |}.

(** [feed_data(data)]: refused after [feed_eof]; an empty chunk is
    dropped; another one is appended to the buffer. The protocol of a
    [CachedStreamReader] is a [Mock], so pausing it does nothing. *)
Definition feed_data (self : stream_reader) (data : value) : result stream_reader :=
  if _eof self then Raised AssertionError
  else if negb (truthy data) then Returned self
  else
    data_len ← len data;
    Returned {| _low_water := _low_water self; _high_water := _high_water self;
                _size := _size self + data_len; _cursor := _cursor self;
                total_bytes := total_bytes self + data_len;
                _buffer := _buffer self ++ [data];
                _eof := false; _exception := _exception self |}.

Definition feed_eof (self : stream_reader) : stream_reader :=
  {| _low_water := _low_water self; _high_water := _high_water self;
     _size := _size self; _cursor := _cursor self;
     total_bytes := total_bytes self; _buffer := _buffer self;
     _eof := true; _exception := _exception self |}.

(** True once [feed_eof] was called. *)
Definition is_eof (self : stream_reader) : bool := _eof self.

(** True once [feed_eof] was called and the buffer is empty. *)
Definition at_eof (self : stream_reader) : bool :=
  _eof self && bool_decide (_buffer self = []).

(** The loop of [_read_nowait(-1)]: [while self._buffer:] pop the
    first chunk, count it, append it to [chunks]. *)
Fixpoint _read_nowait_loop (buffer : list value) (size cursor : Z)
    (chunks : list value) : result (list value * Z * Z) :=
  match buffer with
  | [] => Returned (chunks, size, cursor)
  | data :: rest =>
      n ← len data;
      _read_nowait_loop rest (size - n) (cursor + n) (chunks ++ [data])
  end.

Definition _read_nowait (self : stream_reader) : result (bytes * stream_reader) :=
  '(chunks, size, cursor) ←
    _read_nowait_loop (_buffer self) (_size self) (_cursor self) [];
  data ← match chunks with [] => Returned [] | _ => join chunks end;
  Returned (data,
            {| _low_water := _low_water self; _high_water := _high_water self;
               _size := size; _cursor := cursor;
               total_bytes := total_bytes self; _buffer := [];
               _eof := _eof self; _exception := _exception self |}).

(** [readany()]: waits while there is neither data nor end of data. *)
Definition readany (self : stream_reader) : result (bytes * stream_reader) :=
  match _exception self with
  | Some e => Raised e
  | None =>
      if bool_decide (_buffer self = []) && negb (_eof self) then Blocked
      else _read_nowait self
  end.

(** The loop of [read(-1)]: [readany()] until it returns an empty
    block. [None] when the iterations allowed are used up. *)
Fixpoint read_loop (fuel : nat) (self : stream_reader) (blocks : list bytes)
    : option (result (bytes * stream_reader)) :=
  match fuel with
  | O => None
  | S fuel' =>
      match readany self with
      | Returned (block, self') =>
          match block with
          | [] => Some (Returned (concat blocks, self'))
          | _ => read_loop fuel' self' (blocks ++ [block])
          end
      | Raised e => Some (Raised e)
      | Blocked => Some Blocked
      end
  end.

(** [read()], that is [read(-1)]. [readany] empties the buffer, so the
    loop ends at its second turn at the latest ([read_loop_enough]
    below); the default is never taken. *)
Definition read (self : stream_reader) : result (bytes * stream_reader) :=
  match _exception self with
  | Some e => Raised e
  | None => default Blocked (read_loop 2 self [])
  end.

End StreamReader.

(** ** class CachedStreamReader(StreamReader) *)
Module CachedStreamReader.

(** [def __init__(self, body: bytes | None = None)] *)
Definition __init__ (body : value) : result stream_reader :=
  let body := if truthy body then body else VBytes [] in
  limit ← len body;
  let self := StreamReader.__init__ limit in
  self ← StreamReader.feed_data self body;
  Returned (StreamReader.feed_eof self).

End CachedStreamReader.

(** ** Response objects *)

(** The two classes an object of this file belongs to: aiohttp's
    [ClientResponse], which keeps its payload stream in the instance
    attribute [content], and [CachedResponse], where [content] is a
    property over [_content]. *)
Inductive class :=
  | ClientResponse_class
  | CachedResponse_class.

(** A response object: its class and its [__dict__]. The attribute
    [_history], a tuple of responses, has a field of its own, so that the
    recursion of [postprocess] over the redirect chain is structural; every
    other attribute is an entry of [__dict__]. *)
Inductive Obj := mkObj {
  __class__ : class;
  __dict__ : gmap string value;
  _history : list Obj;
}.

(** [self.name], for an instance attribute. *)
Definition getattr (self : Obj) (name : string) : result value :=
  match __dict__ self !! name with
  | Some v => Returned v
  | None => Raised (AttributeError name)
  end.

(** [self.name = v], for an instance attribute. *)
Definition setattr (self : Obj) (name : string) (v : value) : Obj :=
  mkObj (__class__ self) (<[name := v]> (__dict__ self)) (_history self).

Definition set_history (self : Obj) (history : list Obj) : Obj :=
  mkObj (__class__ self) (__dict__ self) history.

(** What the module takes from outside the repository and calls on a
    response or on bytes: aiohttp's [ClientResponse.get_encoding], which
    [postprocess] calls as [super().get_encoding()], and Python's
    [bytes.decode('utf-8', 'surrogateescape')]. *)
Class Externals := {
  super_get_encoding : Obj → result string;
  decode : bytes → string;
}.

(** ** aiohttp.ClientResponse

    The base class of [CachedResponse], aiohttp's. Its constructor is
    modelled by the attributes that [response.py] reads back
    ([r._writer], [r._continue], [r._timer], [r._request_info],
    [r._traces], [r._loop], [r._session], [r.method], [r.url]) or deletes
    in [__getstate__] ([_cache], [_resolve_charset]); the attributes that
    [CachedResponse.__init__] assigns again right after are left to it. *)
Module ClientResponse.

Definition __init__ (cls : class)
    (method url writer continue100 timer request_info traces loop session : value)
    : Obj :=
  let self := mkObj cls ∅ [] in
  let self := setattr self "method" method in
  let self := setattr self "_url" url in
  let self := setattr self "_writer" writer in
  let self := setattr self "_continue" continue100 in
  let self := setattr self "_request_info" request_info in
  let self := setattr self "_timer" timer in
  let self := setattr self "_cache" VDict in
  let self := setattr self "_traces" traces in
  let self := setattr self "_loop" loop in
  let self := setattr self "_session" session in
  let self := setattr self "_resolve_charset" (VHandle Callable) in
  self.

(** The property [url]. *)
Definition url (self : Obj) : result value := getattr self "_url".

(** The property [raw_headers]. *)
Definition raw_headers (self : Obj) : result value := getattr self "_raw_headers".

End ClientResponse.

(** ** class CachedResponse(ClientResponse) *)
Module CachedResponse.

(** The keyword arguments of the constructor. *)
Record kwargs := mkKwargs {
  kw_method : value;
  kw_url : value;
  kw_writer : value;
  kw_continue100 : value;
  kw_timer : value;
  kw_request_info : value;
  kw_traces : value;
  kw_loop : value;
  kw_session : value;
  kw_headers : value;
  kw_raw_headers : value;
  kw_status : value;
  kw_history : list Obj;
  kw_body : value;
  kw_content : value;
  kw_closed : value;
  kw_protocol : value;
  kw_connection : value;
  kw_version : value;
  kw_reason : value;
  kw_cookies : value;
  kw_released : value;
}.

(** The setter of the property [content]. *)
Definition content_set (self : Obj) (v : value) : Obj := setattr self "_content" v.

(** The getter of the property [content]: it returns the stream and
    the object, which has changed when the stream was built now. *)
Definition content (self : Obj) : result (value * Obj) :=
  c ← getattr self "_content";
  match c with
  | VNone =>
      body ← getattr self "_body";
      stream ← CachedStreamReader.__init__ body;
      let self := setattr self "_content" (VStream stream) in
      Returned (VStream stream, self)
  | _ => Returned (c, self)
  end.

(** The getter and the setter of the property [headers]. *)
Definition headers (self : Obj) : result value := getattr self "_headers".
Definition headers_set (self : Obj) (v : value) : Obj := setattr self "_headers" v.

(** [__init__]; [now] is what [utcnow()] reads during the call. *)
Definition __init__ (now : Z) (kw : kwargs) : Obj :=
  let self := ClientResponse.__init__ CachedResponse_class
                (kw_method kw) (kw_url kw) (kw_writer kw) (kw_continue100 kw)
                (kw_timer kw) (kw_request_info kw) (kw_traces kw) (kw_loop kw)
                (kw_session kw) in
  let self := setattr self "_content" VNone in
  let self := setattr self "created_at" (VDatetime now) in
  let self := setattr self "expires" VNone in
  let self := setattr self "last_used" (VDatetime now) in
  let self := setattr self "from_cache" (VBool true) in
  let self := setattr self "_headers" (kw_headers kw) in
  let self := setattr self "_raw_headers" (kw_raw_headers kw) in
  let self := setattr self "status" (kw_status kw) in
  let self := set_history self (kw_history kw) in
  let self := setattr self "_body" (kw_body kw) in
  let self := content_set self (kw_content kw) in
  let self := setattr self "_closed" (kw_closed kw) in
  let self := setattr self "_protocol" (kw_protocol kw) in
  let self := setattr self "_connection" (kw_connection kw) in
  let self := setattr self "version" (kw_version kw) in
  let self := setattr self "reason" (kw_reason kw) in
  let self := setattr self "cookies" (kw_cookies kw) in
  let self := setattr self "_released" (kw_released kw) in
  self.

(** The attributes that [__getstate__] deletes. *)
Definition transient : list string :=
  ["_request_info"; "_headers"; "_cache"; "_loop"; "_timer";
   "_resolve_charset"; "_protocol"; "_content"; "_session"].

(** [del state[k]] *)
Definition del (state : gmap string value) (k : string) : result (gmap string value) :=
  match state !! k with
  | Some _ => Returned (delete k state)
  | None => Raised (KeyError k)
  end.

(** [for k in keys: del state[k]] *)
Fixpoint del_all (keys : list string) (state : gmap string value)
    : result (gmap string value) :=
  match keys with
  | [] => Returned state
  | k :: keys' => state' ← del state k; del_all keys' state'
  end.

(** [__getstate__]: the state is a copy of [__dict__] without the
    transient attributes. *)
Definition __getstate__ (self : Obj) : result Obj :=
  state ← del_all transient (__dict__ self);
  Returned (mkObj (__class__ self) state (_history self)).

(** [for h in self.raw_headers] with [decode_header(h)] in
    [__setstate__]: a tuple of pairs of byte strings is decoded pair by
    pair; an empty sized value gives no header; any other value makes
    the comprehension fail. *)
Definition decode_headers `{Externals} (raw : value) : result (list (string * string)) :=
  match raw with
  | VRawHeaders items => Returned (map (λ h, (decode h.1, decode h.2)) items)
  | _ =>
      n ← len raw;
      if Z.eqb n 0 then Returned []
      else match raw with
           | VStr _ | VHeaders _ | VCookies _ => Raised (AttributeError "decode")
           | _ => Raised TypeError
           end
  end.

(** [__setstate__], on the object [self] that the unpickler has
    created. *)
Definition __setstate__ `{Externals} (self state : Obj) : result Obj :=
  let self := mkObj (__class__ self) (__dict__ state ∪ __dict__ self) (_history state) in
  let self := setattr self "_cache" VDict in
  let self := setattr self "_content" VNone in
  raw ← ClientResponse.raw_headers self;
  items ← decode_headers raw;
  Returned (headers_set self (VHeaders items)).

Definition get_encoding (self : Obj) : result value := getattr self "_encoding".

(** The property [request_info]. *)
Definition request_info (self : Obj) : result value :=
  url ← ClientResponse.url self;
  method ← getattr self "method";
  hdrs ← headers self;
  real_url ← ClientResponse.url self;
  Returned (VRequestInfo {| ri_url := url; ri_method := method;
                            ri_headers := hdrs; ri_real_url := real_url |}).

(** [read()], inherited from aiohttp's [ClientResponse]: a body that
    was not read yet is read from [self.content] to its end and kept in
    [_body]; a body that was read is returned, unless the response was
    released. The stream is an object that the response shares with
    the reader, so its new state is stored back. Releasing the
    connection afterwards is aiohttp's bookkeeping and left out. *)
Definition read (self : Obj) : result (value * Obj) :=
  body ← getattr self "_body";
  match body with
  | VNone =>
      '(c, self) ← content self;
      match c with
      | VStream stream =>
          '(data, stream') ← StreamReader.read stream;
          let self := setattr self "_content" (VStream stream') in
          let self := setattr self "_body" (VBytes data) in
          Returned (VBytes data, self)
      | _ => Raised (AttributeError "read")
      end
  | _ =>
      released ← getattr self "_released";
      if truthy released then Raised ClientConnectionError
      else Returned (body, self)
  end.

(** [r.content], for [r] of either class. For a [CachedResponse] the
    property may build the stream; [r] is not used afterwards, so only
    the stream is kept. *)
Definition content_of (r : Obj) : result value :=
  match __class__ r with
  | CachedResponse_class => '(c, _) ← content r; Returned c
  | ClientResponse_class => getattr r "content"
  end.

(** The arguments of the call [CachedResponse(r.method, r.url,
    writer=r._writer, ...)] in [postprocess], read from [r] in the order
    in which they are written. *)
Definition kwargs_of (r : Obj) : result kwargs :=
  method ← getattr r "method";
  url ← ClientResponse.url r;
  writer ← getattr r "_writer";
  continue100 ← getattr r "_continue";
  timer ← getattr r "_timer";
  request_info ← getattr r "_request_info";
  traces ← getattr r "_traces";
  loop ← getattr r "_loop";
  session ← getattr r "_session";
  closed ← getattr r "_closed";
  protocol ← getattr r "_protocol";
  connection ← getattr r "_connection";
  version ← getattr r "version";
  status ← getattr r "status";
  reason ← getattr r "reason";
  hdrs ← getattr r "_headers";
  raw_headers ← getattr r "_raw_headers";
  c ← content_of r;
  cookies ← getattr r "cookies";
  body ← getattr r "_body";
  released ← getattr r "_released";
  Returned {| kw_method := method; kw_url := url; kw_writer := writer;
              kw_continue100 := continue100; kw_timer := timer;
              kw_request_info := request_info; kw_traces := traces;
              kw_loop := loop; kw_session := session; kw_headers := hdrs;
              kw_raw_headers := raw_headers; kw_status := status;
              kw_history := _history r; kw_body := body; kw_content := c;
              kw_closed := closed; kw_protocol := protocol;
              kw_connection := connection; kw_version := version;
              kw_reason := reason; kw_cookies := cookies;
              kw_released := released |}.

(** [isinstance(expires, datetime) or expires is None] *)
Definition datetime_or_none (expires : value) : bool :=
  match expires with
  | VDatetime _ | VNone => true
  | _ => false
  end.

(** [postprocess], from the assertion to [self.expires = expires]. *)
Definition postprocess_read (self : Obj) (expires : value) : result Obj :=
  if negb (datetime_or_none expires) then Raised AssertionError
  else
    released ← getattr self "_released";
    self ← (if negb (truthy released)
            then '(_, self') ← read self; Returned self'
            else Returned self);
    body ← getattr self "_body";
    stream ← CachedStreamReader.__init__ body;
    let self := content_set self (VStream stream) in
    Returned (setattr self "expires" expires).

(** [if self._history:] *)
Definition nonempty {A : Type} (l : list A) : bool :=
  match l with [] => false | _ => true end.

(** [postprocess], and the constructor call followed by [postprocess]
    that it makes for every entry of the history. With [fresh = false]
    the function is [self.postprocess(expires)]; with [fresh = true] it
    is [CachedResponse(r.method, ...).postprocess(expires)], which lets
    the recursion descend into the history of [r]: the constructor
    copies [r._history], and reading the body does not touch it.
    [postprocess_eq] and [build_fresh] below give the equations in the
    shape of the source. *)
Fixpoint build `{Externals} (fresh : bool) (now : Z) (r : Obj) (expires : value)
    {struct r} : result Obj :=
  match r with
  | mkObj _ _ history =>
      self ← (if fresh then kw ← kwargs_of r; Returned (__init__ now kw)
              else Returned r);
      self ← postprocess_read self expires;
      self ← (if nonempty history
              then h ← mapM (λ r', build true now r' VNone) history;
                   Returned (set_history self h)
              else Returned self);
      encoding ← super_get_encoding self;
      Returned (setattr self "_encoding" (VStr encoding))
  end.

(** [async def postprocess(self, expires=None)] *)
Definition postprocess `{Externals} (now : Z) (self : Obj) (expires : value)
    : result Obj :=
  build false now self expires.

(** [utcnow() > self.expires]: datetimes compare; a datetime and
    anything else do not. *)
Definition utcnow_gt (now : Z) (expires : value) : result bool :=
  match expires with
  | VDatetime t => Returned (Z.ltb t now)
  | _ => Raised TypeError
  end.

(** The body of the [try] in [is_expired]. *)
Definition is_expired_try (now : Z) (self : Obj) : result bool :=
  expires ← getattr self "expires";
  match expires with
  | VNone => Returned false
  | _ => utcnow_gt now expires
  end.

(** The property [is_expired]; [now] is what [utcnow()] reads. *)
Definition is_expired (now : Z) (self : Obj) : result bool :=
  match is_expired_try now self with
  | Raised (AttributeError _) | Raised TypeError | Raised ValueError => Returned true
  | r => r
  end.

Definition reset (self : Obj) : Obj := setattr self "_content" VNone.

End CachedResponse.

(** ** Reading a response in full *)

(** [await response.content.read()]: the stream that the accessor
    returns is read to its end; it is the object that the response holds,
    so the response sees it drained afterwards. *)
Definition read_content (self : Obj) : result (bytes * Obj) :=
  '(c, self) ← CachedResponse.content self;
  match c with
  | VStream stream =>
      '(data, stream') ← StreamReader.read stream;
      Returned (data, setattr self "_content" (VStream stream'))
  | _ => Raised (AttributeError "read")
  end.

(** [n] full reads, each one followed by [reset()]. *)
Fixpoint read_and_reset (n : nat) (self : Obj) : result (list bytes * Obj) :=
  match n with
  | O => Returned ([], self)
  | S n' =>
      '(data, self) ← read_content self;
      '(rest, self) ← read_and_reset n' (CachedResponse.reset self);
      Returned (data :: rest, self)
  end.

(** What the unpickler does with a state: a new object of the class,
    with an empty [__dict__], receives it through [__setstate__]. *)
Definition unpickle `{Externals} (state : Obj) : result Obj :=
  CachedResponse.__setstate__ (mkObj CachedResponse_class ∅ []) state.

(** ** The helpers at the end of the module *)

(** [_to_str_tuples(data)], that is [[(k, str(v)) for k, v in
    data.items()]]. [data] is given by its items, in their order; [str]
    stands for Python's [str]. *)
Definition _to_str_tuples (str : value → string) (data : list (string * value))
    : list (string * string) :=
  map (λ kv, (kv.1, str kv.2)) data.

(** [_to_url_multidict(data)], that is [MultiDict([(k, URL(url)) for k,
    url in data])]. The multidict is given by its items, in their order;
    [URL] stands for the constructor of yarl's [URL], which can raise. *)
Definition _to_url_multidict (URL : string → result value)
    (data : list (string * string)) : result (list (string * value)) :=
  mapM (λ kv, url ← URL kv.2; Returned (kv.1, url)) data.

(** ** The redirect chain as a tree *)

(** The entries of the history of a response, with the entries of their
    histories, at every depth. *)
Fixpoint descendants (o : Obj) : list Obj :=
  match o with
  | mkObj _ _ history => flat_map (λ entry, entry :: descendants entry) history
  end.

(** What [postprocess] makes of every response of a history: a
    [CachedResponse] that comes from the cache, without expiration, whose
    stream is a replay stream over its body. *)
Definition converted (entry : Obj) : Prop :=
  __class__ entry = CachedResponse_class
  ∧ getattr entry "from_cache" = Returned (VBool true)
  ∧ getattr entry "expires" = Returned VNone
  ∧ ∃ body stream,
      getattr entry "_body" = Returned body
      ∧ CachedStreamReader.__init__ body = Returned stream
      ∧ getattr entry "_content" = Returned (VStream stream).

(** Induction on a response, with the statement for every entry of its
    history. *)
Fixpoint Obj_history_ind (P : Obj → Prop)
    (step : ∀ cls d history, Forall P history → P (mkObj cls d history))
    (o : Obj) : P o :=
  match o with
  | mkObj cls d history =>
      step cls d history
        ((fix entries (l : list Obj) : Forall P l :=
            match l with
            | [] => Forall_nil_2 P
            | entry :: l' =>
                Forall_cons_2 P entry l' (Obj_history_ind P step entry) (entries l')
            end) history)
  end.

(** ** Concrete responses

    The responses on which the statements below are tried. *)

(** A decoder for the examples: one character for each byte. *)
Definition latin1 (b : bytes) : string :=
  String.string_of_list_ascii (map Ascii.ascii_of_byte b).

Definition example_externals : Externals :=
  {| super_get_encoding := λ _, Returned "utf-8"; decode := latin1 |}.

Definition hello : bytes := [x68; x65; x6c; x6c; x6f].

(** A transport stream that has received the body in two chunks and
    then its end. *)
Definition wire : stream_reader :=
  {| _low_water := 65536; _high_water := 131072; _size := 5; _cursor := 0;
     total_bytes := 5; _buffer := [VBytes [x68; x65]; VBytes [x6c; x6c; x6f]];
     _eof := true; _exception := None |}.

(** The transport stream of a released response: nothing buffered, and
    the exception that releasing sets. *)
Definition closed_wire : stream_reader :=
  {| _low_water := 65536; _high_water := 131072; _size := 0; _cursor := 0;
     total_bytes := 0; _buffer := []; _eof := false;
     _exception := Some ClientConnectionError |}.

Definition example_kwargs (body content released connection traces : value)
    (history : list Obj) : CachedResponse.kwargs :=
  {| CachedResponse.kw_method := VStr "GET";
     CachedResponse.kw_url := VUrl "http://example.org/";
     CachedResponse.kw_writer := VNone;
     CachedResponse.kw_continue100 := VNone;
     CachedResponse.kw_timer := VHandle Timer;
     CachedResponse.kw_request_info := VRequestInfo
       {| ri_url := VUrl "http://example.org/"; ri_method := VStr "GET";
          ri_headers := VHeaders [("Accept", "*/*")];
          ri_real_url := VUrl "http://example.org/" |};
     CachedResponse.kw_traces := traces;
     CachedResponse.kw_loop := VHandle EventLoop;
     CachedResponse.kw_session := VHandle Session;
     CachedResponse.kw_headers := VHeaders [("Server", "x")];
     CachedResponse.kw_raw_headers :=
       VRawHeaders [([x53; x65; x72; x76; x65; x72], [x78])];
     CachedResponse.kw_status := VInt 200;
     CachedResponse.kw_history := history;
     CachedResponse.kw_body := body;
     CachedResponse.kw_content := content;
     CachedResponse.kw_closed := VBool false;
     CachedResponse.kw_protocol := VHandle Protocol;
     CachedResponse.kw_connection := connection;
     CachedResponse.kw_version := VVersion 1 1;
     CachedResponse.kw_reason := VStr "OK";
     CachedResponse.kw_cookies := VCookies [];
     CachedResponse.kw_released := released |}.

(** A response whose body is still on the wire. *)
Definition live_response : Obj :=
  CachedResponse.__init__ 100
    (example_kwargs VNone (VStream wire) (VBool false) VNone (VHandles []) []).


(** A released response, read before, that still refers to its
    connection and that was made by a session with a trace
    configuration. *)
Definition connected_response : Obj :=
  CachedResponse.__init__ 100
    (example_kwargs (VBytes hello) VNone (VBool true) (VHandle Connection)
       (VHandles [Trace]) []).

(** A redirect response as aiohttp leaves it in a history: a
    [ClientResponse] that was released without its body being read. *)
Definition redirect_hop (location : string) : Obj :=
  let r := ClientResponse.__init__ ClientResponse_class
             (VStr "GET") (VUrl location) VNone VNone (VHandle Timer) VNone
             (VHandles []) (VHandle EventLoop) (VHandle Session) in
  let r := setattr r "_headers" (VHeaders [("Location", "/next")]) in
  let r := setattr r "_raw_headers"
             (VRawHeaders [([x4c; x6f; x63; x61; x74; x69; x6f; x6e],
                            [x2f; x6e; x65; x78; x74])]) in
  let r := setattr r "status" (VInt 302) in
  let r := setattr r "_body" VNone in
  let r := setattr r "content" (VStream closed_wire) in
  let r := setattr r "_closed" (VBool true) in
  let r := setattr r "_protocol" VNone in
  let r := setattr r "_connection" VNone in
  let r := setattr r "version" (VVersion 1 1) in
  let r := setattr r "reason" (VStr "Found") in
  let r := setattr r "cookies" (VCookies []) in
  let r := setattr r "_released" (VBool true) in
  r.


(** A response reached through two redirects. *)
Definition redirected_response : Obj :=
  CachedResponse.__init__ 100
    (example_kwargs VNone (VStream wire) (VBool false) VNone (VHandles [])
       [redirect_hop "http://example.org/a"; redirect_hop "http://example.org/b"]).

(** The object that a call returns; the empty object when it does not
    return. *)
Definition returned (r : result Obj) : Obj :=
  match r with
  | Returned o => o
  | _ => mkObj CachedResponse_class ∅ []
  end.

(** The snapshots of the responses above, the state of the first one and
    the view loaded from that state. *)
Definition live_snapshot : Obj :=
  returned (CachedResponse.postprocess (H := example_externals) 100
              live_response (VDatetime 500)).


Definition connected_snapshot : Obj :=
  returned (CachedResponse.postprocess (H := example_externals) 100
              connected_response (VDatetime 500)).

Definition redirected_snapshot : Obj :=
  returned (CachedResponse.postprocess (H := example_externals) 100
              redirected_response (VDatetime 500)).

Definition live_state : Obj := returned (CachedResponse.__getstate__ live_snapshot).

Definition live_view : Obj := returned (unpickle (H := example_externals) live_state).

(** A response that is not released and whose transport has failed. *)
Definition failing_response : Obj :=
  CachedResponse.__init__ 100
    (example_kwargs VNone (VStream closed_wire) (VBool false) VNone (VHandles []) []).

(** A response that is not released and has no stream. *)
Definition streamless_response : Obj :=
  CachedResponse.__init__ 100
    (example_kwargs VNone VNone (VBool false) VNone (VHandles []) []).

Definition streamless_snapshot : Obj :=
  returned (CachedResponse.postprocess (H := example_externals) 100
              streamless_response VNone).

(** For the examples: [str] of a URL or of a string, and a constructor of
    URLs that takes any string. *)
Definition example_str (v : value) : string :=
  match v with
  | VUrl u => u
  | VStr s => s
  | _ => ""
  end.

Definition example_URL (u : string) : result value := Returned (VUrl u).

(** A constructor of URLs that refuses an unfinished IPv6 host. *)
Definition strict_URL (u : string) : result value :=
  if String.eqb u "http://[" then Raised ValueError else Returned (VUrl u).

(** ** Notions used in the statements *)

(** The stream that the constructor builds over a byte string. *)
Definition replay_stream (b : bytes) : stream_reader :=
  match b with
  | [] => StreamReader.feed_eof (StreamReader.__init__ 0)
  | _ =>
      let n := Z.of_nat (length b) in
      {| _low_water := n; _high_water := n * 2; _size := n; _cursor := 0;
         total_bytes := n; _buffer := [VBytes b]; _eof := true;
         _exception := None |}
  end.

(** The bytes that a value of [_body] stands for when a replay stream is
    built over it: a byte string stands for itself, [None] and the other
    false values for the empty string. *)
Definition body_bytes (body : value) : option bytes :=
  match body with
  | VBytes b => Some b
  | _ => if truthy body then None else Some []
  end.

(** A response replays [B]: its body stands for [B], and its stream is
    either still to be built or freshly built over [B]. *)
Definition replays (self : Obj) (B : bytes) : Prop :=
  ∃ body, getattr self "_body" = Returned body ∧ body_bytes body = Some B
          ∧ (getattr self "_content" = Returned VNone
             ∨ getattr self "_content" = Returned (VStream (replay_stream B))).

(** The body bytes [B] of a live response, as the constructor receives
    it: the body was read already and is [B], or the response is not
    released and its stream, read to the end, delivers [B]. *)
Definition live_body (kw : CachedResponse.kwargs) (B : bytes) : Prop :=
  CachedResponse.kw_body kw = VBytes B
  ∨ (CachedResponse.kw_body kw = VNone
     ∧ truthy (CachedResponse.kw_released kw) = false
     ∧ ∃ s s', CachedResponse.kw_content kw = VStream s
               ∧ StreamReader.read s = Returned (B, s')).

(** ** Statements of the specification that the code does not meet *)

(** C6, as the specification states it: the constructor returns a
    stream whatever the body is. *)
Definition construction_never_raises : Prop :=
  ∀ body : value, ∃ s, CachedStreamReader.__init__ body = Returned s.



(** * Properties *)

(** ** The result monad *)

Lemma bind_Returned {A B : Type} (f : A → result B) (a : A) :
  (Returned a ≫= f) = f a.
Proof. reflexivity. Qed.

Lemma bind_Returned_inv {A B : Type} (f : A → result B) (m : result A) (b : B) :
  (m ≫= f) = Returned b → ∃ a, m = Returned a ∧ f a = Returned b.
Proof. destruct m as [a| |]; simpl; [eauto | discriminate | discriminate]. Qed.

(** Takes a hypothesis [x ← m; k = Returned b] apart, step by step. *)
Ltac inv_bind H :=
  let a := fresh "a" in
  let Ha := fresh "E" in
  apply bind_Returned_inv in H as (a & Ha & H).

Lemma mapM_ext {A B : Type} (f g : A → result B) (l : list A) :
  (∀ x, x ∈ l → f x = g x) → mapM f l = mapM g l.
Proof.
  induction l as [|x l IH]; intros Hfg; simpl; [reflexivity|].
  rewrite (Hfg x) by left.
  destruct (g x); simpl; try reflexivity.
  rewrite IH; [reflexivity|]. intros y Hy. apply Hfg. by right.
Qed.

Lemma mapM_Forall2 {A B : Type} (f : A → result B) (l : list A) (l' : list B) :
  mapM f l = Returned l' → Forall2 (λ x y, f x = Returned y) l l'.
Proof.
  revert l'. induction l as [|x l IH]; intros l' H; simpl in H.
  - injection H as <-. constructor.
  - inv_bind H. inv_bind H. injection H as <-. constructor; auto.
Qed.

Lemma Forall2_mapM {A B : Type} (f : A → result B) (l : list A) (l' : list B) :
  Forall2 (λ x y, f x = Returned y) l l' → mapM f l = Returned l'.
Proof.
  induction 1 as [|x y l l' Hxy _ IH]; simpl; [reflexivity|].
  rewrite Hxy. simpl. rewrite IH. reflexivity.
Qed.

(** ** The stream reader *)

(** Two turns of the loop of [read] are always enough: the first
    [readany] leaves the buffer empty. *)
Lemma read_loop_enough (self : stream_reader) (blocks : list bytes) :
  is_Some (StreamReader.read_loop 2 self blocks).
Proof.
  unfold StreamReader.read_loop, StreamReader.readany.
  destruct (_exception self) as [e|] eqn:Hexc; [eauto|].
  destruct (bool_decide (_buffer self = []) && negb (_eof self)); [eauto|].
  destruct (StreamReader._read_nowait self) as [[block self']| |] eqn:Hrd; [|eauto|eauto].
  destruct block as [|x block]; [eauto|].
  unfold StreamReader._read_nowait in Hrd.
  inv_bind Hrd. destruct a as [[chunks size] cursor]. inv_bind Hrd.
  injection Hrd as _ <-. simpl. rewrite Hexc. simpl.
  destruct (_eof self); simpl; eauto.
Qed.

(** More turns change nothing. *)
Lemma read_loop_more (n k : nat) (self : stream_reader) (blocks : list bytes) r :
  StreamReader.read_loop n self blocks = Some r →
  StreamReader.read_loop (n + k) self blocks = Some r.
Proof.
  revert self blocks. induction n as [|n IH]; intros self blocks H; [discriminate|].
  simpl in *. destruct (StreamReader.readany self) as [[block self']| |]; auto.
  destruct block; auto.
Qed.

Lemma CachedStreamReader_bytes (b : bytes) :
  CachedStreamReader.__init__ (VBytes b) = Returned (replay_stream b).
Proof. destruct b; reflexivity. Qed.

Lemma CachedStreamReader_falsy (body : value) :
  truthy body = false →
  CachedStreamReader.__init__ body = Returned (replay_stream []).
Proof. unfold CachedStreamReader.__init__. intros ->. reflexivity. Qed.

Lemma replay_stream_read (b : bytes) :
  ∃ s', StreamReader.read (replay_stream b) = Returned (b, s')
        ∧ StreamReader.at_eof s' = true.
Proof.
  destruct b as [|x b]; [eexists; split; reflexivity|].
  unfold StreamReader.read, StreamReader.read_loop, StreamReader.readany,
    StreamReader._read_nowait; simpl.
  rewrite !app_nil_r. simpl. eexists; split; reflexivity.
Qed.

Lemma replay_stream_is_eof (b : bytes) :
  StreamReader.is_eof (replay_stream b) = true.
Proof. destruct b; reflexivity. Qed.

(** ** Attributes *)

Lemma getattr_Returned (self : Obj) (k : string) (v : value) :
  getattr self k = Returned v ↔ __dict__ self !! k = Some v.
Proof.
  unfold getattr. destruct (__dict__ self !! k); split; intros H;
    try discriminate; congruence.
Qed.

Lemma getattr_setattr_eq (self : Obj) (k : string) (v : value) :
  getattr (setattr self k v) k = Returned v.
Proof. unfold getattr, setattr; simpl. by rewrite lookup_insert_eq. Qed.

Lemma getattr_setattr_ne (self : Obj) (k k' : string) (v : value) :
  k ≠ k' → getattr (setattr self k v) k' = getattr self k'.
Proof. intros Hne. unfold getattr, setattr; simpl. by rewrite lookup_insert_ne. Qed.

(** ** Replaying a captured body *)

Lemma CachedStreamReader_body (body : value) (B : bytes) :
  body_bytes body = Some B →
  CachedStreamReader.__init__ body = Returned (replay_stream B).
Proof.
  intros H. destruct body;
    try (unfold body_bytes in H; destruct (truthy _) eqn:Ht in H;
         [discriminate|]; injection H as <-;
         by apply CachedStreamReader_falsy).
  injection H as <-. apply CachedStreamReader_bytes.
Qed.

Lemma read_content_replays (self : Obj) (B : bytes) :
  replays self B →
  ∃ self', read_content self = Returned (B, self')
           ∧ getattr self' "_body" = getattr self "_body"
           ∧ replays (CachedResponse.reset self') B.
Proof.
  intros (body & Hbody & HB & Hc).
  destruct (replay_stream_read B) as (s' & Hread & _).
  assert (Hreset : ∀ o : Obj, getattr o "_body" = Returned body →
            replays (CachedResponse.reset o) B).
  { intros o Ho. exists body. unfold CachedResponse.reset.
    rewrite getattr_setattr_ne by done. rewrite getattr_setattr_eq. auto. }
  unfold read_content, CachedResponse.content.
  destruct Hc as [Hc|Hc]; rewrite Hc; simpl.
  - rewrite Hbody; simpl. rewrite (CachedStreamReader_body _ _ HB); simpl.
    rewrite Hread; simpl. eexists; split; [reflexivity|].
    rewrite !getattr_setattr_ne by done. split; [done|].
    apply Hreset. by rewrite !getattr_setattr_ne by done.
  - rewrite Hread; simpl. eexists; split; [reflexivity|].
    rewrite !getattr_setattr_ne by done. split; [done|].
    apply Hreset. by rewrite !getattr_setattr_ne by done.
Qed.

Lemma read_and_reset_replays (n : nat) (self : Obj) (B : bytes) :
  replays self B →
  ∃ self', read_and_reset n self = Returned (replicate n B, self')
           ∧ getattr self' "_body" = getattr self "_body".
Proof.
  revert self. induction n as [|n IH]; intros self H; simpl; [eauto|].
  destruct (read_content_replays self B H) as (self1 & -> & Hb1 & H1); simpl.
  destruct (IH _ H1) as (self2 & -> & Hb2); simpl.
  eexists; split; [reflexivity|]. rewrite Hb2. unfold CachedResponse.reset.
  by rewrite getattr_setattr_ne by done.
Qed.

(** ** [postprocess]: equations in the shape of the source *)

Section Postprocess.
Context `{Externals}.

Lemma build_unfold (fresh : bool) (now : Z) (r : Obj) (expires : value) :
  CachedResponse.build fresh now r expires =
    (self ← (if fresh
             then kw ← CachedResponse.kwargs_of r;
                  Returned (CachedResponse.__init__ now kw)
             else Returned r);
     self ← CachedResponse.postprocess_read self expires;
     self ← (if CachedResponse.nonempty (_history r)
             then h ← mapM (λ r', CachedResponse.build true now r' VNone) (_history r);
                  Returned (set_history self h)
             else Returned self);
     encoding ← super_get_encoding self;
     Returned (setattr self "_encoding" (VStr encoding))).
Proof. destruct r; reflexivity. Qed.

Lemma init_history (now : Z) (kw : CachedResponse.kwargs) :
  _history (CachedResponse.__init__ now kw) = CachedResponse.kw_history kw.
Proof. reflexivity. Qed.

Lemma init_class (now : Z) (kw : CachedResponse.kwargs) :
  __class__ (CachedResponse.__init__ now kw) = CachedResponse_class.
Proof. reflexivity. Qed.

Lemma kwargs_of_history (r : Obj) (kw : CachedResponse.kwargs) :
  CachedResponse.kwargs_of r = Returned kw →
  CachedResponse.kw_history kw = _history r.
Proof.
  unfold CachedResponse.kwargs_of. intros Hkw.
  repeat inv_bind Hkw. injection Hkw as <-. reflexivity.
Qed.

(** [CachedResponse(r.method, ...).postprocess(expires)] *)
Lemma build_fresh (now : Z) (r : Obj) (expires : value) :
  CachedResponse.build true now r expires =
    (kw ← CachedResponse.kwargs_of r;
     CachedResponse.postprocess now (CachedResponse.__init__ now kw) expires).
Proof.
  rewrite build_unfold. unfold CachedResponse.postprocess.
  destruct (CachedResponse.kwargs_of r) as [kw| |] eqn:Hkw; [|reflexivity..].
  rewrite !bind_Returned, build_unfold, !bind_Returned.
  rewrite init_history, (kwargs_of_history _ _ Hkw). reflexivity.
Qed.

(** [read()] returns the body that it leaves in [_body]; it touches
    [_content] and [_body] only. *)
Lemma read_inv (self self' : Obj) (v : value) :
  CachedResponse.read self = Returned (v, self') →
  getattr self' "_body" = Returned v
  ∧ ((getattr self "_body" = Returned VNone ∧ ∃ data, v = VBytes data)
     ∨ (getattr self "_body" = Returned v ∧ v ≠ VNone ∧ self' = self))
  ∧ __class__ self' = __class__ self
  ∧ _history self' = _history self
  ∧ (∀ k, k ≠ "_content" → k ≠ "_body" → __dict__ self' !! k = __dict__ self !! k)
  ∧ (∀ k, is_Some (__dict__ self !! k) → is_Some (__dict__ self' !! k)).
Proof.
  unfold CachedResponse.read. intros Hr. inv_bind Hr.
  assert (Hnot : a ≠ VNone →
    (released ← getattr self "_released";
     if truthy released then Raised ClientConnectionError
     else Returned (a, self)) = Returned (v, self') →
    getattr self' "_body" = Returned v
    ∧ ((getattr self "_body" = Returned VNone ∧ ∃ data, v = VBytes data)
       ∨ (getattr self "_body" = Returned v ∧ v ≠ VNone ∧ self' = self))
    ∧ __class__ self' = __class__ self
    ∧ _history self' = _history self
    ∧ (∀ k, k ≠ "_content" → k ≠ "_body" → __dict__ self' !! k = __dict__ self !! k)
    ∧ (∀ k, is_Some (__dict__ self !! k) → is_Some (__dict__ self' !! k))).
  { intros Hne Hr'. inv_bind Hr'. destruct (truthy a0); [discriminate|].
    injection Hr' as <- <-. repeat split; auto. }
  destruct a; try (apply Hnot; [discriminate|exact Hr]). clear Hnot.
  inv_bind Hr. destruct a as [c self1].
  destruct c; try discriminate. inv_bind Hr. destruct a as [data stream'].
  injection Hr as <- <-.
  unfold CachedResponse.content in E0. inv_bind E0.
  assert (Hself1 : __class__ self1 = __class__ self
                   ∧ _history self1 = _history self
                   ∧ (∀ k, k ≠ "_content" → __dict__ self1 !! k = __dict__ self !! k)
                   ∧ (∀ k, is_Some (__dict__ self !! k) → is_Some (__dict__ self1 !! k))).
  { destruct a; try (injection E0 as _ <-; by repeat split).
    inv_bind E0. inv_bind E0. injection E0 as _ <-. repeat split.
    - intros k Hk. simpl. by rewrite lookup_insert_ne.
    - intros k Hk. simpl. destruct (decide ("_content" = k)) as [<-|Hne].
      + rewrite lookup_insert_eq. eauto.
      + by rewrite lookup_insert_ne. }
  destruct Hself1 as (Hc & Hh & Hsame & Hkeys).
  rewrite getattr_setattr_eq. repeat split; auto.
  - left. split; [done|eauto].
  - intros k Hk1 Hk2. simpl. rewrite !lookup_insert_ne by done. by apply Hsame.
  - intros k Hk. simpl.
    destruct (decide ("_body" = k)) as [<-|Hne1]; [rewrite lookup_insert_eq; eauto|].
    rewrite lookup_insert_ne by done.
    destruct (decide ("_content" = k)) as [<-|Hne2]; [rewrite lookup_insert_eq; eauto|].
    rewrite lookup_insert_ne by done. by apply Hkeys.
Qed.

(** [postprocess], up to [self.expires = expires], taken apart. *)
Lemma postprocess_read_inv (self self1 : Obj) (expires : value) :
  CachedResponse.postprocess_read self expires = Returned self1 →
  CachedResponse.datetime_or_none expires = true
  ∧ ∃ released self0 body stream,
      getattr self "_released" = Returned released
      ∧ (if truthy released then self0 = self
         else ∃ v, CachedResponse.read self = Returned (v, self0))
      ∧ getattr self0 "_body" = Returned body
      ∧ CachedStreamReader.__init__ body = Returned stream
      ∧ self1 = setattr (CachedResponse.content_set self0 (VStream stream))
                  "expires" expires.
Proof.
  unfold CachedResponse.postprocess_read. intros Hp.
  destruct (CachedResponse.datetime_or_none expires); [|discriminate].
  split; [reflexivity|]. simpl in Hp.
  inv_bind Hp. inv_bind Hp. inv_bind Hp. inv_bind Hp. injection Hp as <-.
  exists a, a0, a1, a2. repeat split; auto.
  destruct (truthy a); simpl in E0.
  - by injection E0 as <-.
  - inv_bind E0. destruct a3 as [v self']. injection E0 as <-. eauto.
Qed.

(** What [postprocess] has done when it reaches the history: the
    stream is a replay stream over the body, [expires] is recorded, and
    nothing else has changed but [_body] and [_content]. *)
Lemma postprocess_read_frame (self self1 : Obj) (expires : value) :
  CachedResponse.postprocess_read self expires = Returned self1 →
  __class__ self1 = __class__ self
  ∧ _history self1 = _history self
  ∧ (∀ k, k ≠ "_content" → k ≠ "_body" → k ≠ "expires" →
       __dict__ self1 !! k = __dict__ self !! k)
  ∧ (∀ k, is_Some (__dict__ self !! k) → is_Some (__dict__ self1 !! k))
  ∧ getattr self1 "expires" = Returned expires
  ∧ ∃ body stream,
      getattr self1 "_body" = Returned body
      ∧ CachedStreamReader.__init__ body = Returned stream
      ∧ getattr self1 "_content" = Returned (VStream stream).
Proof.
  intros Hp. apply postprocess_read_inv in Hp
    as (_ & released & self0 & body & stream & Hrel & Hself0 & Hbody & Hs & ->).
  assert (H0 : __class__ self0 = __class__ self
               ∧ _history self0 = _history self
               ∧ (∀ k, k ≠ "_content" → k ≠ "_body" →
                    __dict__ self0 !! k = __dict__ self !! k)
               ∧ (∀ k, is_Some (__dict__ self !! k) → is_Some (__dict__ self0 !! k))).
  { destruct (truthy released).
    - subst self0. by repeat split.
    - destruct Hself0 as (v & Hr). apply read_inv in Hr. tauto. }
  destruct H0 as (Hc & Hh & Hsame & Hkeys).
  unfold CachedResponse.content_set. repeat split; auto.
  - intros k H1 H2 H3. simpl. rewrite !lookup_insert_ne by done. by apply Hsame.
  - intros k Hk. simpl.
    destruct (decide ("expires" = k)) as [<-|Hne1]; [rewrite lookup_insert_eq; eauto|].
    rewrite lookup_insert_ne by done.
    destruct (decide ("_content" = k)) as [<-|Hne2]; [rewrite lookup_insert_eq; eauto|].
    rewrite lookup_insert_ne by done. by apply Hkeys.
  - apply getattr_setattr_eq.
  - exists body, stream. split_and!; [|done|].
    + by rewrite !getattr_setattr_ne by done.
    + rewrite getattr_setattr_ne by done. apply getattr_setattr_eq.
Qed.

(** [postprocess] as the source writes it: the body of the method,
    with the recursive call on the response constructed from each entry
    of the history. *)
Lemma postprocess_eq (now : Z) (self : Obj) (expires : value) :
  CachedResponse.postprocess now self expires =
    (self ← CachedResponse.postprocess_read self expires;
     self ← (if CachedResponse.nonempty (_history self)
             then h ← mapM (λ r, kw ← CachedResponse.kwargs_of r;
                                 CachedResponse.postprocess now
                                   (CachedResponse.__init__ now kw) VNone)
                           (_history self);
                  Returned (set_history self h)
             else Returned self);
     encoding ← super_get_encoding self;
     Returned (setattr self "_encoding" (VStr encoding))).
Proof.
  unfold CachedResponse.postprocess at 1. rewrite build_unfold, bind_Returned.
  destruct (CachedResponse.postprocess_read self expires) as [self1| |] eqn:Hp;
    [|reflexivity..].
  rewrite !bind_Returned.
  apply postprocess_read_frame in Hp as (_ & -> & _).
  erewrite mapM_ext; [reflexivity|]. intros r _. apply build_fresh.
Qed.

Lemma set_history_id (self : Obj) : set_history self (_history self) = self.
Proof. by destruct self. Qed.

(** A successful [postprocess], taken apart. *)
Lemma postprocess_inv (now : Z) (self snap : Obj) (expires : value) :
  CachedResponse.postprocess now self expires = Returned snap →
  ∃ self1 h encoding,
    CachedResponse.postprocess_read self expires = Returned self1
    ∧ (if CachedResponse.nonempty (_history self)
       then mapM (λ r, kw ← CachedResponse.kwargs_of r;
                       CachedResponse.postprocess now
                         (CachedResponse.__init__ now kw) VNone)
                 (_history self) = Returned h
       else h = _history self)
    ∧ super_get_encoding (set_history self1 h) = Returned encoding
    ∧ snap = setattr (set_history self1 h) "_encoding" (VStr encoding).
Proof.
  rewrite postprocess_eq. intros Hp. inv_bind Hp. rename a into self1.
  pose proof (postprocess_read_frame _ _ _ E) as (_ & Hh & _).
  rewrite Hh in Hp. inv_bind Hp. inv_bind Hp. injection Hp as <-.
  destruct (CachedResponse.nonempty (_history self)).
  - inv_bind E0. injection E0 as <-. exists self1, a1, a0. auto.
  - injection E0 as <-. exists self1, (_history self), a0.
    rewrite <- Hh, set_history_id. auto.
Qed.

End Postprocess.

(** ** [__getstate__] and [__setstate__] *)

Lemma del_all_inv (keys : list string) (state st : gmap string value) :
  CachedResponse.del_all keys state = Returned st →
  (∀ k, k ∈ keys → st !! k = None) ∧ (∀ k, k ∉ keys → st !! k = state !! k).
Proof.
  revert state. induction keys as [|k0 keys IH]; intros state Hd; simpl in Hd.
  - injection Hd as <-. split; [intros k Hk; by apply elem_of_nil in Hk | done].
  - inv_bind Hd. unfold CachedResponse.del in E.
    destruct (state !! k0); [|discriminate]. injection E as <-.
    destruct (IH _ Hd) as (Hin & Hout). split.
    + intros k Hk. destruct (decide (k ∈ keys)) as [|Hnot]; [by apply Hin|].
      apply elem_of_cons in Hk as [->|]; [|done].
      rewrite Hout by done. apply lookup_delete_eq.
    + intros k Hk. apply not_elem_of_cons in Hk as (Hne & Hnot).
      rewrite Hout by done. by apply lookup_delete_ne.
Qed.

Lemma del_all_total (keys : list string) (state : gmap string value) :
  NoDup keys → (∀ k, k ∈ keys → is_Some (state !! k)) →
  ∃ st, CachedResponse.del_all keys state = Returned st.
Proof.
  intros Hnd. revert state. induction Hnd as [|k0 keys Hnot Hnd IH]; intros state Hk; simpl.
  - eauto.
  - unfold CachedResponse.del. destruct (Hk k0) as (v & ->); [left|]. simpl.
    apply IH. intros k Hin. rewrite lookup_delete_ne; [apply Hk; by right|].
    intros ->. done.
Qed.

Lemma transient_NoDup : NoDup CachedResponse.transient.
Proof. compute_done. Qed.

(** The state is the dictionary without the transient attributes. *)
Lemma getstate_inv (self st : Obj) :
  CachedResponse.__getstate__ self = Returned st →
  __class__ st = __class__ self
  ∧ _history st = _history self
  ∧ (∀ k, k ∈ CachedResponse.transient → __dict__ st !! k = None)
  ∧ (∀ k, k ∉ CachedResponse.transient → __dict__ st !! k = __dict__ self !! k).
Proof.
  unfold CachedResponse.__getstate__. intros Hg. inv_bind Hg. injection Hg as <-.
  apply del_all_inv in E. simpl. tauto.
Qed.

(** [__getstate__] returns as soon as the transient attributes are all
    there to be deleted. *)
Lemma getstate_total (self : Obj) :
  (∀ k, k ∈ CachedResponse.transient → is_Some (__dict__ self !! k)) →
  ∃ st, CachedResponse.__getstate__ self = Returned st.
Proof.
  intros Hk. unfold CachedResponse.__getstate__.
  destruct (del_all_total _ (__dict__ self) transient_NoDup Hk) as (st & ->).
  simpl. eauto.
Qed.

(** The constructor assigns every transient attribute. *)
Lemma init_transient (now : Z) (kw : CachedResponse.kwargs) (k : string) :
  k ∈ CachedResponse.transient →
  is_Some (__dict__ (CachedResponse.__init__ now kw) !! k).
Proof.
  unfold CachedResponse.transient. intros Hk.
  repeat (apply elem_of_cons in Hk as [->|Hk]; [vm_compute; eauto|]).
  by apply elem_of_nil in Hk.
Qed.

Section Pickle.
Context `{Externals}.

Lemma unpickle_inv (st view : Obj) :
  unpickle st = Returned view →
  ∃ raw items,
    __dict__ st !! "_raw_headers" = Some raw
    ∧ CachedResponse.decode_headers raw = Returned items
    ∧ view = mkObj CachedResponse_class
               (<["_headers" := VHeaders items]>
                  (<["_content" := VNone]> (<["_cache" := VDict]> (__dict__ st))))
               (_history st).
Proof.
  unfold unpickle, CachedResponse.__setstate__, ClientResponse.raw_headers.
  simpl. rewrite (right_id_L ∅ (∪)). intros Hu.
  inv_bind Hu. inv_bind Hu. injection Hu as <-.
  apply getattr_Returned in E. simpl in E.
  rewrite !lookup_insert_ne in E by done. eauto.
Qed.

Lemma unpickle_total (st : Obj) (items : list (bytes * bytes)) :
  __dict__ st !! "_raw_headers" = Some (VRawHeaders items) →
  ∃ view, unpickle st = Returned view.
Proof.
  intros Hraw.
  unfold unpickle, CachedResponse.__setstate__, ClientResponse.raw_headers.
  simpl. rewrite (right_id_L ∅ (∪)).
  unfold getattr at 1. simpl. rewrite !lookup_insert_ne by done.
  rewrite Hraw. simpl. eauto.
Qed.

(** A view replays the body that the state holds. *)
Lemma unpickle_replays (st view : Obj) (body : value) (B : bytes) :
  unpickle st = Returned view →
  __dict__ st !! "_body" = Some body → body_bytes body = Some B →
  replays view B.
Proof.
  intros Hu Hbody HB. apply unpickle_inv in Hu as (raw & items & _ & _ & ->).
  exists body. split_and!; [|done|left].
  - apply getattr_Returned. simpl. by rewrite !lookup_insert_ne by done.
  - apply getattr_Returned. simpl. rewrite lookup_insert_ne by done.
    apply lookup_insert_eq.
Qed.

End Pickle.

(** ** What [postprocess] leaves in the snapshot *)

Section Snapshot.
Context `{Externals}.

Lemma postprocess_frame (now : Z) (self snap : Obj) (expires : value) :
  CachedResponse.postprocess now self expires = Returned snap →
  __class__ snap = __class__ self
  ∧ (∀ k, k ≠ "_content" → k ≠ "_body" → k ≠ "expires" → k ≠ "_encoding" →
       __dict__ snap !! k = __dict__ self !! k)
  ∧ (∀ k, is_Some (__dict__ self !! k) → is_Some (__dict__ snap !! k))
  ∧ getattr snap "expires" = Returned expires
  ∧ ∃ released body stream,
      getattr self "_released" = Returned released
      ∧ (if truthy released then getattr self "_body" = Returned body
         else ∃ self', CachedResponse.read self = Returned (body, self'))
      ∧ getattr snap "_body" = Returned body
      ∧ CachedStreamReader.__init__ body = Returned stream
      ∧ getattr snap "_content" = Returned (VStream stream).
Proof.
  intros Hp. apply postprocess_inv in Hp as (self1 & h & enc & Hr & _ & _ & ->).
  pose proof (postprocess_read_frame _ _ _ Hr)
    as (Hc & _ & Hsame & Hkeys & Hexp & body & stream & Hbody & Hs & Hcontent).
  apply postprocess_read_inv in Hr
    as (_ & released & self0 & body' & stream' & Hrel & Hself0 & Hbody' & _ & ->).
  assert (body' = body) as ->.
  { unfold CachedResponse.content_set in Hbody.
    rewrite !getattr_setattr_ne in Hbody by done. congruence. }
  split_and!.
  - exact Hc.
  - intros k H1 H2 H3 H4. simpl. rewrite lookup_insert_ne by done. by apply Hsame.
  - intros k Hk. simpl.
    destruct (decide ("_encoding" = k)) as [<-|Hne]; [rewrite lookup_insert_eq; eauto|].
    rewrite lookup_insert_ne by done. by apply Hkeys.
  - rewrite getattr_setattr_ne by done. exact Hexp.
  - exists released, body, stream.
    split_and!; try (rewrite getattr_setattr_ne by done); auto.
    clear Hbody Hcontent Hexp.
    destruct (truthy released).
    + by subst self0.
    + destruct Hself0 as (v & Hread). pose proof (read_inv _ _ _ Hread) as (Hv & _).
      assert (v = body) as -> by congruence. eauto.
Qed.

(** The snapshot replays the body that it has captured. *)
Lemma postprocess_replays (now : Z) (self snap : Obj) (expires body : value) (B : bytes) :
  CachedResponse.postprocess now self expires = Returned snap →
  getattr snap "_body" = Returned body → body_bytes body = Some B →
  replays snap B.
Proof.
  intros Hp Hbody HB.
  apply postprocess_frame in Hp
    as (_ & _ & _ & _ & rel & body' & stream & _ & _ & Hbody' & Hs & Hcontent).
  assert (body' = body) as -> by congruence.
  rewrite (CachedStreamReader_body _ _ HB) in Hs. injection Hs as <-.
  exists body. auto.
Qed.

(** A snapshot of a response that the constructor has built can be
    serialized. *)
Lemma getstate_snapshot (now : Z) (kw : CachedResponse.kwargs)
    (snap : Obj) (expires : value) :
  CachedResponse.postprocess now (CachedResponse.__init__ now kw) expires
    = Returned snap →
  ∃ st, CachedResponse.__getstate__ snap = Returned st.
Proof.
  intros Hp. apply postprocess_frame in Hp as (_ & _ & Hkeys & _).
  apply getstate_total. intros k Hk. apply Hkeys. by apply init_transient.
Qed.

(** Serializing a snapshot and loading it back gives a view that
    replays the captured body, any number of times. *)
Lemma snapshot_roundtrip (now : Z) (kw : CachedResponse.kwargs)
    (snap : Obj) (expires body : value) (items : list (bytes * bytes)) (B : bytes) :
  CachedResponse.kw_raw_headers kw = VRawHeaders items →
  CachedResponse.postprocess now (CachedResponse.__init__ now kw) expires
    = Returned snap →
  getattr snap "_body" = Returned body → body_bytes body = Some B →
  ∃ st view,
    CachedResponse.__getstate__ snap = Returned st
    ∧ unpickle st = Returned view
    ∧ ∀ n, ∃ view', read_and_reset n view = Returned (replicate n B, view').
Proof.
  intros Hraw Hp Hbody HB.
  destruct (getstate_snapshot _ _ _ _ Hp) as (st & Hst).
  pose proof (getstate_inv _ _ Hst) as (_ & _ & _ & Hkept).
  apply postprocess_frame in Hp as (_ & Hsame & _).
  assert (Hraw' : __dict__ st !! "_raw_headers" = Some (VRawHeaders items)).
  { rewrite Hkept by compute_done. rewrite Hsame by done.
    rewrite <- Hraw. reflexivity. }
  assert (Hbody' : __dict__ st !! "_body" = Some body).
  { rewrite Hkept by compute_done. by apply getattr_Returned. }
  destruct (unpickle_total _ _ Hraw') as (view & Hview).
  exists st, view. split_and!; auto.
  intros n. destruct (read_and_reset_replays n view B) as (view' & Hv & _); [|eauto].
  eapply unpickle_replays; eauto.
Qed.

End Snapshot.

(** * The claims *)

(** ** The replay stream *)

(** C5. For every byte string [b], the stream that
    [CachedStreamReader(b)] builds reports the end of the data at once
    ([is_eof]), a full read returns exactly [b] without waiting and leaves
    the stream at its end, and a response whose body is [b] gives [b] at
    every read over a new stream, its [_body] being the same afterwards. *)
Theorem replay_stream_contract (b : bytes) :
  ∃ s s',
    CachedStreamReader.__init__ (VBytes b) = Returned s
    ∧ StreamReader.is_eof s = true
    ∧ StreamReader.read s = Returned (b, s')
    ∧ StreamReader.at_eof s' = true
    ∧ ∀ (self : Obj) (n : nat),
        ∃ self',
          read_and_reset n
            (CachedResponse.reset (setattr self "_body" (VBytes b)))
            = Returned (replicate n b, self')
          ∧ getattr self' "_body" = Returned (VBytes b).
Proof.
  destruct (replay_stream_read b) as (s' & Hread & Heof).
  exists (replay_stream b), s'. split_and!; auto.
  - apply CachedStreamReader_bytes.
  - apply replay_stream_is_eof.
  - intros self n.
    destruct (read_and_reset_replays n
                (CachedResponse.reset (setattr self "_body" (VBytes b))) b)
      as (self' & Hrr & Hbody).
    + exists (VBytes b). unfold CachedResponse.reset. split_and!; [|done|left].
      * rewrite getattr_setattr_ne by done. apply getattr_setattr_eq.
      * apply getattr_setattr_eq.
    + exists self'. split; [done|]. rewrite Hbody. unfold CachedResponse.reset.
      rewrite getattr_setattr_ne by done. apply getattr_setattr_eq.
Qed.

(** C6 fails as stated: [CachedStreamReader(5)] keeps [5], which is
    true, and raises [TypeError] at [len(body)]. *)
Lemma construction_raises_on_int :
  CachedStreamReader.__init__ (VInt 5) = Raised TypeError
  ∧ ¬ construction_never_raises.
Proof.
  split; [reflexivity|]. intros Hc. destruct (Hc (VInt 5)) as (s & Hs).
  discriminate Hs.
Qed.

(** C6, amended. The constructor returns a stream for every body that is
    a byte string, [None] or another false value; [None] and the other
    false values give the stream over the empty byte string, whose full
    read is empty. *)
Theorem construction_of_bytes_or_false (body : value) (B : bytes) :
  body_bytes body = Some B →
  ∃ s s',
    CachedStreamReader.__init__ body = Returned s
    ∧ StreamReader.read s = Returned (B, s')
    ∧ (truthy body = false → B = []).
Proof.
  intros HB. destruct (replay_stream_read B) as (s' & Hread & _).
  exists (replay_stream B), s'. split_and!; auto.
  - by apply CachedStreamReader_body.
  - intros Hf. destruct body; simpl in HB, Hf; try rewrite Hf in HB; try congruence.
    destruct b; [congruence|discriminate].
Qed.

Lemma construction_of_bytes_or_false_witness :
  body_bytes VNone = Some []
  ∧ ∃ s s',
      CachedStreamReader.__init__ VNone = Returned s
      ∧ StreamReader.read s = Returned ([], s')
      ∧ (truthy VNone = false → @nil byte = []).
Proof.
  split; [reflexivity|].
  apply (construction_of_bytes_or_false VNone []). reflexivity.
Defined.

(** ** Expiration *)

Lemma is_expired_try_cases (now : Z) (self : Obj) :
  CachedResponse.is_expired_try now self =
    match __dict__ self !! "expires" with
    | None => Raised (AttributeError "expires")
    | Some VNone => Returned false
    | Some (VDatetime t) => Returned (Z.ltb t now)
    | Some _ => Raised TypeError
    end.
Proof.
  unfold CachedResponse.is_expired_try, getattr.
  destruct (__dict__ self !! "expires") as [[]|]; reflexivity.
Qed.


(** ** Round trip *)

Section RoundTrip.
Context `{Externals}.

Lemma init_released (now : Z) (kw : CachedResponse.kwargs) :
  getattr (CachedResponse.__init__ now kw) "_released"
    = Returned (CachedResponse.kw_released kw).
Proof. vm_compute. reflexivity. Qed.

Lemma init_body (now : Z) (kw : CachedResponse.kwargs) :
  getattr (CachedResponse.__init__ now kw) "_body"
    = Returned (CachedResponse.kw_body kw).
Proof. vm_compute. reflexivity. Qed.

Lemma init_content (now : Z) (kw : CachedResponse.kwargs) :
  getattr (CachedResponse.__init__ now kw) "_content"
    = Returned (CachedResponse.kw_content kw).
Proof. vm_compute. reflexivity. Qed.

Lemma init_raw_headers (now : Z) (kw : CachedResponse.kwargs) :
  getattr (CachedResponse.__init__ now kw) "_raw_headers"
    = Returned (CachedResponse.kw_raw_headers kw).
Proof. vm_compute. reflexivity. Qed.

Lemma read_known_body (self self' : Obj) (v : value) (B : bytes) :
  CachedResponse.read self = Returned (v, self') →
  getattr self "_body" = Returned (VBytes B) → v = VBytes B.
Proof.
  intros Hr Hb. apply read_inv in Hr as (_ & [(Hn & _)|(Hv & _)] & _); congruence.
Qed.

Lemma read_from_stream (self self' : Obj) (v : value) (s s' : stream_reader)
    (B : bytes) :
  CachedResponse.read self = Returned (v, self') →
  getattr self "_body" = Returned VNone →
  getattr self "_content" = Returned (VStream s) →
  StreamReader.read s = Returned (B, s') → v = VBytes B.
Proof.
  unfold CachedResponse.read, CachedResponse.content. intros Hr Hb Hc Hread.
  rewrite Hb in Hr. simpl in Hr. rewrite Hc in Hr. simpl in Hr.
  rewrite Hread in Hr. simpl in Hr. congruence.
Qed.

(** The snapshot of a live response captures its body bytes. *)
Lemma postprocess_live_body (now : Z) (kw : CachedResponse.kwargs)
    (snap : Obj) (expires : value) (B : bytes) :
  live_body kw B →
  CachedResponse.postprocess now (CachedResponse.__init__ now kw) expires
    = Returned snap →
  getattr snap "_body" = Returned (VBytes B).
Proof.
  intros Hlive Hp.
  apply postprocess_frame in Hp
    as (_ & _ & _ & _ & released & body & stream & Hrel & Hbody & -> & _).
  f_equal. rewrite init_released in Hrel. injection Hrel as <-.
  destruct Hlive as [Hb|(Hb & Hnr & s & s' & Hc & Hread)].
  - destruct (truthy (CachedResponse.kw_released kw)) eqn:Ht.
    + rewrite init_body in Hbody. congruence.
    + destruct Hbody as (self' & Hr).
      eapply read_known_body; [exact Hr|]. by rewrite init_body, Hb.
  - rewrite Hnr in Hbody. destruct Hbody as (self' & Hr).
    eapply read_from_stream; [exact Hr| | |exact Hread].
    + by rewrite init_body, Hb.
    + by rewrite init_content, Hc.
Qed.

(** C1. A snapshot built from a live response with body bytes [B] is
    serialized by [__getstate__]; the state is loaded back by
    [__setstate__]; and the view so obtained gives [B] at every full
    read of its content, for any number of reads, each one over a
    stream that is built anew. *)
Theorem roundtrip (now : Z) (kw : CachedResponse.kwargs) (expires : value)
    (snap : Obj) (items : list (bytes * bytes)) (B : bytes) :
  CachedResponse.kw_raw_headers kw = VRawHeaders items →
  live_body kw B →
  CachedResponse.postprocess now (CachedResponse.__init__ now kw) expires
    = Returned snap →
  ∃ st view,
    CachedResponse.__getstate__ snap = Returned st
    ∧ unpickle st = Returned view
    ∧ ∀ n, ∃ view', read_and_reset n view = Returned (replicate n B, view').
Proof.
  intros Hraw Hlive Hp.
  eapply snapshot_roundtrip; eauto using postprocess_live_body.
Qed.

End RoundTrip.

Lemma roundtrip_witness :
  CachedResponse.postprocess (H := example_externals) 100 live_response
    (VDatetime 500) = Returned live_snapshot
  ∧ ∃ st view,
      CachedResponse.__getstate__ live_snapshot = Returned st
      ∧ unpickle (H := example_externals) st = Returned view
      ∧ ∀ n, ∃ view', read_and_reset n view = Returned (replicate n hello, view').
Proof.
  split; [vm_compute; reflexivity|].
  apply (roundtrip (H := example_externals) 100
           (example_kwargs VNone (VStream wire) (VBool false) VNone (VHandles []) [])
           (VDatetime 500) live_snapshot
           [([x53; x65; x72; x76; x65; x72], [x78])] hello).
  - reflexivity.
  - right. split_and!; [reflexivity|reflexivity|].
    eexists wire, _. split; [reflexivity|]. vm_compute. reflexivity.
  - vm_compute. reflexivity.
Defined.

(** ** [postprocess] and the body *)


Section Body.
Context `{Externals}.


End Body.


(** ** The content accessor and [reset] *)

Section Content.
Context `{Externals}.

(** C8. The view loaded from a state whose body stands for [B] has no
    stream yet; the first access to [content] builds the replay stream
    over the body and keeps it, so that the next access returns the
    stream that the view holds and builds nothing; [reset()] discards
    the stream, and the access that follows builds a new one; a full
    read, [reset()] and a second full read both give [B]. *)
Theorem content_is_lazy (st view : Obj) (body : value) (B : bytes) :
  unpickle st = Returned view →
  getattr st "_body" = Returned body →
  body_bytes body = Some B →
  getattr view "_content" = Returned VNone
  ∧ (∃ view1,
       CachedResponse.content view = Returned (VStream (replay_stream B), view1)
       ∧ CachedStreamReader.__init__ body = Returned (replay_stream B)
       ∧ getattr view1 "_content" = Returned (VStream (replay_stream B))
       ∧ CachedResponse.content view1 = Returned (VStream (replay_stream B), view1)
       ∧ getattr (CachedResponse.reset view1) "_content" = Returned VNone
       ∧ ∃ view2,
           CachedResponse.content (CachedResponse.reset view1)
             = Returned (VStream (replay_stream B), view2))
  ∧ ∃ view1 view2,
      read_content view = Returned (B, view1)
      ∧ read_content (CachedResponse.reset view1) = Returned (B, view2).
Proof.
  intros Hu Hbody HB. apply getattr_Returned in Hbody.
  pose proof (unpickle_replays _ _ _ _ Hu Hbody HB) as Hrep.
  apply unpickle_inv in Hu as (raw & items & _ & _ & ->).
  assert (Hc : getattr
                 (mkObj CachedResponse_class
                    (<["_headers" := VHeaders items]>
                       (<["_content" := VNone]>
                          (<["_cache" := VDict]> (__dict__ st))))
                    (_history st)) "_content" = Returned VNone).
  { apply getattr_Returned. simpl. rewrite lookup_insert_ne by done.
    apply lookup_insert_eq. }
  set (view := mkObj _ _ _) in *.
  assert (Hb : getattr view "_body" = Returned body).
  { apply getattr_Returned. subst view. simpl. by rewrite !lookup_insert_ne by done. }
  pose proof (CachedStreamReader_body _ _ HB) as Hs.
  split_and!; [exact Hc| |].
  - exists (setattr view "_content" (VStream (replay_stream B))).
    unfold CachedResponse.content at 1. rewrite Hc. simpl. rewrite Hb. simpl.
    rewrite Hs. simpl. split_and!; [reflexivity|reflexivity| | | |].
    + apply getattr_setattr_eq.
    + unfold CachedResponse.content. by rewrite getattr_setattr_eq.
    + apply getattr_setattr_eq.
    + eexists. unfold CachedResponse.content, CachedResponse.reset.
      rewrite getattr_setattr_eq. simpl. rewrite !getattr_setattr_ne by done.
      rewrite Hb. simpl. rewrite Hs. reflexivity.
  - destruct (read_content_replays view B Hrep) as (view1 & Hr1 & _ & Hrep1).
    destruct (read_content_replays _ B Hrep1) as (view2 & Hr2 & _).
    eauto.
Qed.

(** ** [request_info] *)

(** C9. The state that [__getstate__] produces has no [_request_info],
    and neither has the view loaded from it; on the view, [request_info]
    is built at each access from the stored URL, the stored method and
    the headers that the view has at that moment, so that it follows the
    headers when they are assigned. *)
Theorem request_info_is_derived (self st view : Obj) (url method : value) :
  CachedResponse.__getstate__ self = Returned st →
  unpickle st = Returned view →
  getattr self "_url" = Returned url →
  getattr self "method" = Returned method →
  __dict__ st !! "_request_info" = None
  ∧ __dict__ view !! "_request_info" = None
  ∧ (∃ hdrs,
       CachedResponse.headers view = Returned hdrs
       ∧ CachedResponse.request_info view
         = Returned (VRequestInfo {| ri_url := url; ri_method := method;
                                     ri_headers := hdrs; ri_real_url := url |}))
  ∧ ∀ hdrs',
      CachedResponse.request_info (CachedResponse.headers_set view hdrs')
      = Returned (VRequestInfo {| ri_url := url; ri_method := method;
                                  ri_headers := hdrs'; ri_real_url := url |}).
Proof.
  intros Hg Hu Hurl Hmethod.
  apply getstate_inv in Hg as (_ & _ & Hgone & Hkept).
  assert (Hri : __dict__ st !! "_request_info" = None) by (apply Hgone; compute_done).
  apply unpickle_inv in Hu as (raw & items & _ & _ & ->).
  set (view := mkObj _ _ _).
  assert (Hu' : getattr view "_url" = Returned url).
  { rewrite <- Hurl. unfold getattr. subst view. simpl.
    rewrite !lookup_insert_ne by done. by rewrite Hkept by compute_done. }
  assert (Hm' : getattr view "method" = Returned method).
  { rewrite <- Hmethod. unfold getattr. subst view. simpl.
    rewrite !lookup_insert_ne by done. by rewrite Hkept by compute_done. }
  split_and!; [exact Hri| | |].
  - subst view. simpl. by rewrite !lookup_insert_ne by done.
  - exists (VHeaders items).
    assert (Hh : CachedResponse.headers view = Returned (VHeaders items)).
    { unfold CachedResponse.headers. apply getattr_Returned. subst view. simpl.
      apply lookup_insert_eq. }
    split; [exact Hh|].
    unfold CachedResponse.request_info, ClientResponse.url.
    rewrite Hu', Hm', Hh. reflexivity.
  - intros hdrs'.
    unfold CachedResponse.request_info, ClientResponse.url,
      CachedResponse.headers, CachedResponse.headers_set.
    rewrite getattr_setattr_eq, !getattr_setattr_ne by done.
    rewrite Hu', Hm'. reflexivity.
Qed.

End Content.

Lemma content_is_lazy_witness :
  unpickle (H := example_externals) live_state = Returned live_view
  ∧ getattr live_state "_body" = Returned (VBytes hello)
  ∧ body_bytes (VBytes hello) = Some hello
  ∧ ∃ view1 view2,
      read_content live_view = Returned (hello, view1)
      ∧ read_content (CachedResponse.reset view1) = Returned (hello, view2).
Proof.
  split_and!; [vm_compute; reflexivity..|].
  apply (content_is_lazy (H := example_externals) live_state live_view
           (VBytes hello) hello); vm_compute; reflexivity.
Defined.

Lemma request_info_is_derived_witness :
  CachedResponse.__getstate__ live_snapshot = Returned live_state
  ∧ unpickle (H := example_externals) live_state = Returned live_view
  ∧ getattr live_snapshot "_url" = Returned (VUrl "http://example.org/")
  ∧ getattr live_snapshot "method" = Returned (VStr "GET")
  ∧ __dict__ live_state !! "_request_info" = None
  ∧ ∀ hdrs',
      CachedResponse.request_info (CachedResponse.headers_set live_view hdrs')
      = Returned (VRequestInfo {| ri_url := VUrl "http://example.org/";
                                  ri_method := VStr "GET";
                                  ri_headers := hdrs';
                                  ri_real_url := VUrl "http://example.org/" |}).
Proof.
  split_and!; [vm_compute; reflexivity..| |];
    apply (request_info_is_derived (H := example_externals) live_snapshot
             live_state live_view (VUrl "http://example.org/") (VStr "GET"));
    vm_compute; reflexivity.
Defined.

(** ** The serialized state *)


Section State.
Context `{Externals}.


End State.


(** ** The redirect history *)

Section History.
Context `{Externals}.

(** Every entry of the history of a snapshot is the snapshot, without
    expiration, of the response constructed from the entry at the same
    place. *)
Lemma postprocess_history (now : Z) (self snap : Obj) (expires : value) :
  CachedResponse.postprocess now self expires = Returned snap →
  Forall2 (λ r entry,
             ∃ kw, CachedResponse.kwargs_of r = Returned kw
                   ∧ CachedResponse.postprocess now
                       (CachedResponse.__init__ now kw) VNone = Returned entry)
          (_history self) (_history snap).
Proof.
  intros Hp. apply postprocess_inv in Hp as (self1 & h & enc & _ & Hh & _ & ->).
  change (_history (setattr (set_history self1 h) "_encoding" (VStr enc))) with h.
  destruct (CachedResponse.nonempty (_history self)) eqn:Hne.
  - apply mapM_Forall2 in Hh. eapply Forall2_impl; [exact Hh|].
    intros r entry Hr. simpl in Hr. inv_bind Hr. eauto.
  - subst h. destruct (_history self); [constructor|discriminate].
Qed.


(** C10. Whatever [expires] the snapshot is built with, every entry of
    its history has [expires = None] and is never expired. *)
Theorem history_never_expires (now : Z) (self snap : Obj) (expires : value) :
  CachedResponse.postprocess now self expires = Returned snap →
  Forall (λ entry,
            getattr entry "expires" = Returned VNone
            ∧ ∀ t, CachedResponse.is_expired t entry = Returned false)
         (_history snap).
Proof.
  intros Hp. apply postprocess_history in Hp.
  induction Hp as [|r entry rs entries (kw & _ & Hentry) _ IH]; constructor; [|exact IH].
  apply postprocess_frame in Hentry as (_ & _ & _ & Hexp & _).
  split; [exact Hexp|]. intros t.
  unfold CachedResponse.is_expired, CachedResponse.is_expired_try.
  rewrite Hexp. reflexivity.
Qed.


End History.

Lemma history_never_expires_witness :
  CachedResponse.postprocess (H := example_externals) 100 redirected_response
    (VDatetime 500) = Returned redirected_snapshot
  ∧ length (_history redirected_snapshot) = 2%nat
  ∧ Forall (λ entry,
              getattr entry "expires" = Returned VNone
              ∧ ∀ t, CachedResponse.is_expired t entry = Returned false)
           (_history redirected_snapshot).
Proof.
  split_and!; [vm_compute; reflexivity..|].
  apply (history_never_expires (H := example_externals) 100 redirected_response
           redirected_snapshot (VDatetime 500)).
  vm_compute. reflexivity.
Defined.


(** * Further properties *)

(** ** Serialization *)

Lemma del_all_raises (keys : list string) (state : gmap string value) (e : exn) :
  NoDup keys →
  CachedResponse.del_all keys state = Raised e →
  ∃ k, e = KeyError k ∧ k ∈ keys ∧ state !! k = None.
Proof.
  intros Hnd. revert state.
  induction Hnd as [|k0 keys Hnot Hnd IH]; intros state Hd; simpl in Hd;
    [discriminate|].
  unfold CachedResponse.del in Hd.
  destruct (state !! k0) as [v|] eqn:Hk0; simpl in Hd.
  - apply IH in Hd as (k & -> & Hin & Hnone). exists k. split_and!; [done|by right|].
    rewrite lookup_delete_ne in Hnone; [done|]. by intros ->.
  - injection Hd as <-. exists k0. split_and!; [done|by left|done].
Qed.

Lemma del_all_not_blocked (keys : list string) (state : gmap string value) :
  CachedResponse.del_all keys state ≠ Blocked.
Proof.
  revert state. induction keys as [|k0 keys IH]; intros state; simpl; [done|].
  unfold CachedResponse.del. destruct (state !! k0); simpl; [apply IH|done].
Qed.

Lemma del_all_insert (keys : list string) (state : gmap string value)
    (k : string) (v : value) :
  k ∈ keys → is_Some (state !! k) →
  CachedResponse.del_all keys (<[k := v]> state) = CachedResponse.del_all keys state.
Proof.
  revert state. induction keys as [|k0 keys IH]; intros state Hin Hk.
  - by apply elem_of_nil in Hin.
  - simpl. unfold CachedResponse.del.
    destruct (decide (k0 = k)) as [->|Hne].
    + rewrite lookup_insert_eq. destruct Hk as (w & ->). simpl.
      by rewrite delete_insert_eq.
    + rewrite lookup_insert_ne by done.
      apply elem_of_cons in Hin as [->|Hin]; [done|].
      destruct (state !! k0) as [w|] eqn:Hk0; simpl; [|reflexivity].
      rewrite delete_insert_ne by done. apply IH; [done|].
      by rewrite lookup_delete_ne.
Qed.

Lemma del_all_missing_head (k0 : string) (keys : list string)
    (state : gmap string value) :
  state !! k0 = None →
  CachedResponse.del_all (k0 :: keys) state = Raised (KeyError k0).
Proof. intros Hk0. simpl. unfold CachedResponse.del. by rewrite Hk0. Qed.

Lemma del_all_returned (keys : list string) (state st : gmap string value) :
  NoDup keys →
  CachedResponse.del_all keys state = Returned st →
  ∀ k, k ∈ keys → is_Some (state !! k).
Proof.
  intros Hnd. revert state.
  induction Hnd as [|k0 keys Hnot Hnd IH]; intros state Hd k Hin.
  - by apply elem_of_nil in Hin.
  - simpl in Hd. inv_bind Hd. unfold CachedResponse.del in E.
    destruct (state !! k0) eqn:Hk0; [|discriminate]. injection E as <-.
    apply elem_of_cons in Hin as [->|Hin]; [by rewrite Hk0|].
    specialize (IH _ Hd k Hin). rewrite lookup_delete_ne in IH; [done|].
    by intros ->.
Qed.

(** X1. [__getstate__] returns exactly when the response has the nine
    attributes that it deletes; otherwise it raises [KeyError] for one of
    them that the response lacks, and it does nothing else. *)
Theorem getstate_returns_iff (self : Obj) :
  ((∃ st, CachedResponse.__getstate__ self = Returned st) ↔
   (∀ k, k ∈ CachedResponse.transient → is_Some (__dict__ self !! k)))
  ∧ (∀ e, CachedResponse.__getstate__ self = Raised e →
          ∃ k, e = KeyError k ∧ k ∈ CachedResponse.transient
               ∧ __dict__ self !! k = None)
  ∧ CachedResponse.__getstate__ self ≠ Blocked.
Proof.
  unfold CachedResponse.__getstate__.
  pose proof (del_all_not_blocked CachedResponse.transient (__dict__ self)) as Hnb.
  destruct (CachedResponse.del_all CachedResponse.transient (__dict__ self))
    as [st|e'|] eqn:Hd; simpl; [| |done].
  - split_and!; [|discriminate|discriminate].
    split; [|eauto]. intros _.
    by apply (del_all_returned _ _ _ transient_NoDup Hd).
  - pose proof (del_all_raises _ _ _ transient_NoDup Hd) as (k & -> & Hin & Hnone).
    split_and!; [|intros e [= <-]; eauto|discriminate].
    split; [intros (st & [=])|].
    intros Hall. destruct (Hall k Hin) as (v & Hv). congruence.
Qed.

Section MoreState.
Context `{Externals}.

(** X2. The attributes that [__getstate__] keeps come back unchanged in
    the view that [__setstate__] fills from the state, and so does the
    history. *)
Theorem kept_attributes_survive (self st view : Obj) :
  CachedResponse.__getstate__ self = Returned st →
  unpickle st = Returned view →
  (∀ k, k ∉ CachedResponse.transient → __dict__ view !! k = __dict__ self !! k)
  ∧ _history view = _history self.
Proof.
  intros Hg Hu. apply getstate_inv in Hg as (_ & Hh & _ & Hkept).
  apply unpickle_inv in Hu as (raw & items & _ & _ & ->). simpl.
  split; [|done]. intros k Hk. rewrite <- Hkept by done.
  assert (Hne : k ≠ "_headers" ∧ k ≠ "_content" ∧ k ≠ "_cache").
  { split_and!; intros ->; apply Hk; compute_done. }
  destruct Hne as (H1 & H2 & H3). by rewrite !lookup_insert_ne by done.
Qed.

(** X3. A view cannot be serialized again: it was filled from a state
    that has no [_request_info], and [__getstate__] raises [KeyError] at
    its first deletion. *)
Theorem view_is_not_serialized (self st view : Obj) :
  CachedResponse.__getstate__ self = Returned st →
  unpickle st = Returned view →
  CachedResponse.__getstate__ view = Raised (KeyError "_request_info").
Proof.
  intros Hg Hu. apply getstate_inv in Hg as (_ & _ & Hgone & _).
  assert (Hri : __dict__ st !! "_request_info" = None) by (apply Hgone; compute_done).
  apply unpickle_inv in Hu as (raw & items & _ & _ & ->).
  unfold CachedResponse.__getstate__, CachedResponse.transient.
  rewrite del_all_missing_head; [reflexivity|]. simpl.
  by rewrite !lookup_insert_ne by done.
Qed.

End MoreState.

(** X4. Assigning an attribute that [__getstate__] deletes does not
    change the state: in particular the state is the same after the
    headers are assigned, after the stream is replaced and after
    [reset()]. *)
Theorem state_ignores_transient (self : Obj) (k : string) (v : value) :
  k ∈ CachedResponse.transient →
  is_Some (__dict__ self !! k) →
  CachedResponse.__getstate__ (setattr self k v) = CachedResponse.__getstate__ self.
Proof.
  intros Hk Hsome. unfold CachedResponse.__getstate__, setattr.
  cbn [__dict__ __class__ _history]. by rewrite del_all_insert.
Qed.

Section MoreSetstate.
Context `{Externals}.


End MoreSetstate.

(** ** [postprocess] *)

Section MorePostprocess.
Context `{Externals}.

(** X6. [postprocess] checks [expires] first: a value that is neither a
    datetime nor [None] raises [AssertionError], whatever the response
    is, before anything is read. *)
Theorem postprocess_rejects_expires (now : Z) (self : Obj) (expires : value) :
  CachedResponse.datetime_or_none expires = false →
  CachedResponse.postprocess now self expires = Raised AssertionError.
Proof.
  intros He. rewrite postprocess_eq. unfold CachedResponse.postprocess_read.
  rewrite He. reflexivity.
Qed.

(** X7. A failure of the transport reaches the caller unchanged: when
    the response is not released, its body is not read yet and its stream
    holds an exception, [postprocess] raises that exception. *)
Theorem postprocess_propagates_failure (now : Z) (self : Obj)
    (expires released : value) (stream : stream_reader) (e : exn) :
  CachedResponse.datetime_or_none expires = true →
  getattr self "_released" = Returned released →
  truthy released = false →
  getattr self "_body" = Returned VNone →
  getattr self "_content" = Returned (VStream stream) →
  _exception stream = Some e →
  CachedResponse.postprocess now self expires = Raised e.
Proof.
  intros He Hrel Hnr Hbody Hc Hexc. rewrite postprocess_eq.
  unfold CachedResponse.postprocess_read. rewrite He, Hrel. simpl. rewrite Hnr.
  simpl. unfold CachedResponse.read, CachedResponse.content.
  rewrite Hbody. simpl. rewrite Hc. simpl.
  unfold StreamReader.read. rewrite Hexc. reflexivity.
Qed.

(** X8. A body that was read before is kept: when [_body] is a byte
    string, the snapshot has the same [_body], whether the response was
    released or not, and replays it. *)
Theorem postprocess_keeps_read_body (now : Z) (self snap : Obj)
    (expires : value) (B : bytes) :
  getattr self "_body" = Returned (VBytes B) →
  CachedResponse.postprocess now self expires = Returned snap →
  getattr snap "_body" = Returned (VBytes B)
  ∧ ∃ snap', read_content snap = Returned (B, snap').
Proof.
  intros Hbody Hp.
  assert (Hsnap : getattr snap "_body" = Returned (VBytes B)).
  { pose proof (postprocess_frame _ _ _ _ Hp)
      as (_ & _ & _ & _ & released & body & stream & _ & Hread & -> & _).
    f_equal. destruct (truthy released); [congruence|].
    destruct Hread as (self' & Hr). eapply read_known_body; eauto. }
  split; [exact Hsnap|].
  destruct (read_content_replays snap B) as (snap' & Hr & _); [|eauto].
  eapply postprocess_replays; eauto.
Qed.


(** X10. The encoding is resolved once, by [super().get_encoding()] on
    the response that already holds the captured body, the replay stream,
    [expires] and the converted history; it is stored in [_encoding],
    where [get_encoding()] finds it on the snapshot and on every view
    loaded from the state of the snapshot. *)
Theorem encoding_is_stored (now : Z) (self snap : Obj) (expires : value) :
  CachedResponse.postprocess now self expires = Returned snap →
  ∃ encoding resolved,
    super_get_encoding resolved = Returned encoding
    ∧ snap = setattr resolved "_encoding" (VStr encoding)
    ∧ CachedResponse.get_encoding snap = Returned (VStr encoding)
    ∧ ∀ st view,
        CachedResponse.__getstate__ snap = Returned st →
        unpickle st = Returned view →
        CachedResponse.get_encoding view = Returned (VStr encoding).
Proof.
  intros Hp. apply postprocess_inv in Hp as (self1 & h & enc & _ & _ & Henc & ->).
  exists enc, (set_history self1 h). unfold CachedResponse.get_encoding.
  split_and!; [done|done|apply getattr_setattr_eq|].
  intros st view Hg Hu. apply getstate_inv in Hg as (_ & _ & _ & Hkept).
  apply unpickle_inv in Hu as (raw & items & _ & _ & ->).
  apply getattr_Returned. cbn [__dict__]. rewrite !lookup_insert_ne by done.
  rewrite Hkept by compute_done. cbn [setattr __dict__]. apply lookup_insert_eq.
Qed.

(** X11. A response that is not released and has neither a body nor a
    stream is captured with the empty body: [read()] builds a replay
    stream over [None] and reads it. *)
Theorem postprocess_without_stream (now : Z) (self snap : Obj)
    (expires released : value) :
  getattr self "_released" = Returned released →
  truthy released = false →
  getattr self "_body" = Returned VNone →
  getattr self "_content" = Returned VNone →
  CachedResponse.postprocess now self expires = Returned snap →
  getattr snap "_body" = Returned (VBytes []).
Proof.
  intros Hrel Hnr Hbody Hc Hp.
  pose proof (postprocess_frame _ _ _ _ Hp)
    as (_ & _ & _ & _ & released' & body & stream & Hrel' & Hread & -> & _).
  f_equal. rewrite Hrel in Hrel'. injection Hrel' as <-. rewrite Hnr in Hread.
  destruct Hread as (self' & Hr).
  unfold CachedResponse.read, CachedResponse.content, getattr in Hr.
  apply getattr_Returned in Hbody, Hc.
  rewrite Hbody in Hr. simpl in Hr. rewrite Hc in Hr. simpl in Hr.
  congruence.
Qed.

End MorePostprocess.




Lemma init_from_cache (now : Z) (kw : CachedResponse.kwargs) :
  getattr (CachedResponse.__init__ now kw) "from_cache" = Returned (VBool true).
Proof. vm_compute. reflexivity. Qed.

Lemma postprocess_getattr `{Externals} (now : Z) (self snap : Obj)
    (expires : value) (k : string) :
  CachedResponse.postprocess now self expires = Returned snap →
  k ∉ ["_body"; "_content"; "expires"; "_encoding"] →
  getattr snap k = getattr self k.
Proof.
  intros Hp Hk. apply postprocess_frame in Hp as (_ & Hsame & _).
  unfold getattr. rewrite Hsame; [done|intros ->; apply Hk; compute_done..].
Qed.

Section MoreAccessors.
Context `{Externals}.


(** ** Expiration *)


End MoreAccessors.

(** X14. Expiration is monotone in time: a response that is expired at
    some time is expired at every later time. *)
Theorem is_expired_monotone (now now' : Z) (self : Obj) :
  now ≤ now' →
  CachedResponse.is_expired now self = Returned true →
  CachedResponse.is_expired now' self = Returned true.
Proof.
  intros Hle. unfold CachedResponse.is_expired. rewrite !is_expired_try_cases.
  destruct (__dict__ self !! "expires") as [[]|]; try done.
  intros [= Hlt]. f_equal. apply Z.ltb_lt in Hlt. apply Z.ltb_lt. lia.
Qed.

(** ** Reading twice *)

Lemma replay_stream_drained (B : bytes) :
  ∃ s' s'', StreamReader.read (replay_stream B) = Returned (B, s')
            ∧ StreamReader.read s' = Returned ([], s'').
Proof.
  destruct B as [|x B]; [do 2 eexists; split; reflexivity|].
  unfold StreamReader.read, StreamReader.read_loop, StreamReader.readany,
    StreamReader._read_nowait; simpl.
  rewrite !app_nil_r. simpl. do 2 eexists; split; reflexivity.
Qed.

(** X15. Without [reset()] the stream of a response is read once: the
    first full read of a response that replays [B] gives [B], the second
    one finds the same stream at its end and gives the empty byte string,
    and [_body] is still what it was. *)
Theorem second_read_is_empty (self : Obj) (B : bytes) :
  replays self B →
  ∃ self1 self2,
    read_content self = Returned (B, self1)
    ∧ read_content self1 = Returned ([], self2)
    ∧ getattr self2 "_body" = getattr self "_body".
Proof.
  intros (body & Hbody & HB & Hc).
  destruct (replay_stream_drained B) as (s' & s'' & Hr1 & Hr2).
  assert (Hsecond : ∀ o : Obj,
            read_content (setattr o "_content" (VStream s'))
            = Returned ([], setattr (setattr o "_content" (VStream s'))
                              "_content" (VStream s''))).
  { intros o. unfold read_content, CachedResponse.content.
    rewrite getattr_setattr_eq. simpl. rewrite Hr2. reflexivity. }
  unfold read_content at 1, CachedResponse.content.
  destruct Hc as [Hc|Hc]; rewrite Hc; simpl.
  - rewrite Hbody; simpl. rewrite (CachedStreamReader_body _ _ HB); simpl.
    rewrite Hr1; simpl. do 2 eexists. split_and!; [reflexivity|apply Hsecond|].
    by rewrite !getattr_setattr_ne by done.
  - rewrite Hr1; simpl. do 2 eexists. split_and!; [reflexivity|apply Hsecond|].
    by rewrite !getattr_setattr_ne by done.
Qed.

(** ** The whole redirect chain *)

Lemma descendants_eq (o : Obj) :
  descendants o = flat_map (λ entry, entry :: descendants entry) (_history o).
Proof. by destruct o. Qed.

Section Chain.
Context `{Externals}.

Lemma converted_snapshot (now : Z) (kw : CachedResponse.kwargs) (entry : Obj) :
  CachedResponse.postprocess now (CachedResponse.__init__ now kw) VNone
    = Returned entry →
  converted entry.
Proof.
  intros Hp. unfold converted.
  rewrite (postprocess_getattr _ _ _ _ "from_cache" Hp) by compute_done.
  rewrite init_from_cache.
  apply postprocess_frame in Hp
    as (Hc & _ & _ & Hexp & released & body & stream & _ & _ & Hb & Hs & Hcontent).
  split_and!; eauto.
Qed.

Lemma build_descendants (now : Z) (r : Obj) :
  ∀ fresh expires snap,
    CachedResponse.build fresh now r expires = Returned snap →
    Forall converted (descendants snap).
Proof.
  induction r as [cls d history IH] using Obj_history_ind.
  intros fresh expires snap Hb. rewrite build_unfold in Hb.
  apply bind_Returned_inv in Hb as (self0 & Hself0 & Hb).
  apply bind_Returned_inv in Hb as (self1 & Hself1 & Hb).
  apply bind_Returned_inv in Hb as (self2 & Hself2 & Hb).
  apply bind_Returned_inv in Hb as (encoding & _ & Hb). injection Hb as <-.
  rewrite descendants_eq.
  change (_history (setattr self2 "_encoding" (VStr encoding)))
    with (_history self2).
  cbn [_history] in Hself2.
  assert (H0 : _history self0 = history).
  { destruct fresh.
    - apply bind_Returned_inv in Hself0 as (kw & Hkw & Hself0).
      injection Hself0 as <-. rewrite init_history.
      by rewrite (kwargs_of_history _ _ Hkw).
    - by injection Hself0 as <-. }
  pose proof (postprocess_read_frame _ _ _ Hself1) as (_ & H1 & _).
  destruct history as [|r0 rest]; cbn [CachedResponse.nonempty] in Hself2.
  - injection Hself2 as <-. rewrite H1, H0. constructor.
  - apply bind_Returned_inv in Hself2 as (h & Hh & Hself2).
    injection Hself2 as <-. cbn [set_history _history].
    apply mapM_Forall2 in Hh. revert Hh IH. generalize (r0 :: rest).
    intros l Hh IH. clear -Hh IH.
    induction Hh as [|r' e' l l' Hre _ IHl]; [constructor|].
    apply Forall_cons in IH as (IHr & IHrest). cbn [flat_map].
    constructor; [|apply Forall_app; split; [by eapply IHr|by apply IHl]].
    rewrite build_fresh in Hre.
    apply bind_Returned_inv in Hre as (kw & _ & Hre).
    by eapply converted_snapshot.
Qed.

(** X16. [postprocess] converts the whole redirect chain: every response
    in the history of the snapshot, and in the histories of those
    responses, at any depth, is a [CachedResponse] that comes from the
    cache, has no expiration, and has a replay stream over its body. *)
Theorem chain_is_converted (now : Z) (self snap : Obj) (expires : value) :
  CachedResponse.postprocess now self expires = Returned snap →
  Forall converted (descendants snap).
Proof. apply build_descendants. Qed.

End Chain.

(** ** The helpers at the end of the module *)

Lemma mapM_cons {A B : Type} (f : A → result B) (x : A) (l : list A) :
  mapM f (x :: l) = (y ← f x; ys ← mapM f l; Returned (y :: ys)).
Proof. reflexivity. Qed.

(** X17. [_to_url_multidict] and [_to_str_tuples] are inverse to each
    other on items whose URLs are accepted and printed back as they were
    written: the multidict has the keys of the items, in their order, and
    [_to_str_tuples] gives the items back. *)
Theorem url_multidict_roundtrip (URL : string → result value) (str : value → string)
    (data : list (string * string)) :
  (∀ k u, (k, u) ∈ data → ∃ v, URL u = Returned v ∧ str v = u) →
  ∃ multidict,
    _to_url_multidict URL data = Returned multidict
    ∧ map fst multidict = map fst data
    ∧ _to_str_tuples str multidict = data.
Proof.
  unfold _to_url_multidict, _to_str_tuples.
  induction data as [|[k u] data IH]; intros Hok; [by exists []|].
  destruct (Hok k u) as (v & Hv & Hs); [left|].
  destruct IH as (md & Hmd & Hkeys & Hstr).
  { intros k' u' Hin. apply (Hok k'). by right. }
  exists ((k, v) :: md). rewrite mapM_cons. cbn [fst snd]. rewrite Hv, Hmd.
  cbn. rewrite Hkeys, Hstr, Hs. done.
Qed.

(** X18. [_to_url_multidict] stops at the first URL that is refused: when
    the URLs before it are accepted, the exception that [URL] raises for
    it is the exception of the call, whatever follows. *)
Theorem url_multidict_first_failure (URL : string → result value)
    (before after : list (string * string)) (k u : string) (e : exn) :
  (∀ k' u', (k', u') ∈ before → ∃ v, URL u' = Returned v) →
  URL u = Raised e →
  _to_url_multidict URL (before ++ (k, u) :: after) = Raised e.
Proof.
  unfold _to_url_multidict. intros Hok Hu.
  induction before as [|[k' u'] before IH]; cbn [app]; rewrite mapM_cons;
    cbn [fst snd].
  - rewrite Hu. reflexivity.
  - destruct (Hok k' u') as (v & ->); [left|].
    rewrite IH; [reflexivity|]. intros k'' u'' Hin. apply (Hok k''). by right.
Qed.

(** ** The further properties on the concrete responses *)

Lemma kept_attributes_survive_witness :
  CachedResponse.__getstate__ live_snapshot = Returned live_state
  ∧ unpickle (H := example_externals) live_state = Returned live_view
  ∧ (∀ k, k ∉ CachedResponse.transient →
          __dict__ live_view !! k = __dict__ live_snapshot !! k)
  ∧ _history live_view = _history live_snapshot.
Proof.
  split_and!; [vm_compute; reflexivity..| |];
    apply (kept_attributes_survive (H := example_externals)
             live_snapshot live_state live_view);
    vm_compute; reflexivity.
Defined.

Lemma view_is_not_serialized_witness :
  CachedResponse.__getstate__ live_snapshot = Returned live_state
  ∧ unpickle (H := example_externals) live_state = Returned live_view
  ∧ CachedResponse.__getstate__ live_view = Raised (KeyError "_request_info").
Proof.
  split_and!; [vm_compute; reflexivity..|].
  apply (view_is_not_serialized (H := example_externals)
           live_snapshot live_state live_view);
    vm_compute; reflexivity.
Defined.

Lemma state_ignores_transient_witness :
  "_headers" ∈ CachedResponse.transient
  ∧ is_Some (__dict__ live_snapshot !! "_headers")
  ∧ CachedResponse.__getstate__
      (setattr live_snapshot "_headers" (VHeaders [("Server", "y")]))
    = CachedResponse.__getstate__ live_snapshot.
Proof.
  assert (Hin : "_headers" ∈ CachedResponse.transient) by compute_done.
  assert (Hsome : is_Some (__dict__ live_snapshot !! "_headers"))
    by (vm_compute; eauto).
  split_and!; [exact Hin|exact Hsome|].
  exact (state_ignores_transient live_snapshot "_headers"
           (VHeaders [("Server", "y")]) Hin Hsome).
Defined.

Lemma postprocess_rejects_expires_witness :
  CachedResponse.datetime_or_none (VStr "tomorrow") = false
  ∧ CachedResponse.postprocess (H := example_externals) 100 live_response
      (VStr "tomorrow") = Raised AssertionError.
Proof.
  split; [reflexivity|].
  apply (postprocess_rejects_expires (H := example_externals)). reflexivity.
Defined.

Lemma postprocess_propagates_failure_witness :
  CachedResponse.datetime_or_none VNone = true
  ∧ getattr failing_response "_released" = Returned (VBool false)
  ∧ getattr failing_response "_body" = Returned VNone
  ∧ getattr failing_response "_content" = Returned (VStream closed_wire)
  ∧ _exception closed_wire = Some ClientConnectionError
  ∧ CachedResponse.postprocess (H := example_externals) 100 failing_response VNone
    = Raised ClientConnectionError.
Proof.
  split_and!; [reflexivity..|].
  apply (postprocess_propagates_failure (H := example_externals) 100
           failing_response VNone (VBool false) closed_wire ClientConnectionError);
    reflexivity.
Defined.

Lemma postprocess_keeps_read_body_witness :
  getattr connected_response "_body" = Returned (VBytes hello)
  ∧ CachedResponse.postprocess (H := example_externals) 100 connected_response
      (VDatetime 500) = Returned connected_snapshot
  ∧ getattr connected_snapshot "_body" = Returned (VBytes hello).
Proof.
  split_and!; [vm_compute; reflexivity..|].
  apply (postprocess_keeps_read_body (H := example_externals) 100
           connected_response connected_snapshot (VDatetime 500) hello);
    vm_compute; reflexivity.
Defined.


Lemma encoding_is_stored_witness :
  CachedResponse.postprocess (H := example_externals) 100 live_response
    (VDatetime 500) = Returned live_snapshot
  ∧ ∃ encoding resolved,
      super_get_encoding (Externals := example_externals) resolved = Returned encoding
      ∧ live_snapshot = setattr resolved "_encoding" (VStr encoding)
      ∧ CachedResponse.get_encoding live_snapshot = Returned (VStr encoding)
      ∧ ∀ st view,
          CachedResponse.__getstate__ live_snapshot = Returned st →
          unpickle (H := example_externals) st = Returned view →
          CachedResponse.get_encoding view = Returned (VStr encoding).
Proof.
  split; [vm_compute; reflexivity|].
  apply (encoding_is_stored (H := example_externals) 100 live_response
           live_snapshot (VDatetime 500)).
  vm_compute. reflexivity.
Defined.

Lemma postprocess_without_stream_witness :
  getattr streamless_response "_released" = Returned (VBool false)
  ∧ getattr streamless_response "_body" = Returned VNone
  ∧ getattr streamless_response "_content" = Returned VNone
  ∧ CachedResponse.postprocess (H := example_externals) 100 streamless_response
      VNone = Returned streamless_snapshot
  ∧ getattr streamless_snapshot "_body" = Returned (VBytes []).
Proof.
  split_and!; [vm_compute; reflexivity..|].
  apply (postprocess_without_stream (H := example_externals) 100
           streamless_response streamless_snapshot VNone (VBool false));
    vm_compute; reflexivity.
Defined.



Lemma is_expired_monotone_witness :
  501 ≤ 600
  ∧ CachedResponse.is_expired 501 live_snapshot = Returned true
  ∧ CachedResponse.is_expired 600 live_snapshot = Returned true.
Proof.
  assert (Hle : 501 ≤ 600) by lia.
  assert (H501 : CachedResponse.is_expired 501 live_snapshot = Returned true)
    by (vm_compute; reflexivity).
  split_and!; [exact Hle|exact H501|].
  exact (is_expired_monotone 501 600 live_snapshot Hle H501).
Defined.

Lemma second_read_is_empty_witness :
  replays live_view hello
  ∧ ∃ self1 self2,
      read_content live_view = Returned (hello, self1)
      ∧ read_content self1 = Returned ([], self2)
      ∧ getattr self2 "_body" = getattr live_view "_body".
Proof.
  assert (Hrep : replays live_view hello).
  { exists (VBytes hello). split_and!; [vm_compute; reflexivity|reflexivity|].
    left. vm_compute. reflexivity. }
  split; [exact Hrep|]. exact (second_read_is_empty live_view hello Hrep).
Defined.

Lemma chain_is_converted_witness :
  CachedResponse.postprocess (H := example_externals) 100 redirected_response
    (VDatetime 500) = Returned redirected_snapshot
  ∧ length (descendants redirected_snapshot) = 2%nat
  ∧ Forall converted (descendants redirected_snapshot).
Proof.
  split_and!; [vm_compute; reflexivity..|].
  apply (chain_is_converted (H := example_externals) 100 redirected_response
           redirected_snapshot (VDatetime 500)).
  vm_compute. reflexivity.
Defined.

Lemma url_multidict_roundtrip_witness :
  (∀ k u, (k, u) ∈ [("next", "http://example.org/2")] →
          ∃ v, example_URL u = Returned v ∧ example_str v = u)
  ∧ ∃ multidict,
      _to_url_multidict example_URL [("next", "http://example.org/2")]
        = Returned multidict
      ∧ map fst multidict = ["next"]
      ∧ _to_str_tuples example_str multidict = [("next", "http://example.org/2")].
Proof.
  assert (Hok : ∀ k u, (k, u) ∈ [("next", "http://example.org/2")] →
                       ∃ v, example_URL u = Returned v ∧ example_str v = u).
  { intros k u _. exists (VUrl u). split; reflexivity. }
  split; [exact Hok|].
  exact (url_multidict_roundtrip example_URL example_str
           [("next", "http://example.org/2")] Hok).
Defined.

Lemma url_multidict_first_failure_witness :
  (∀ k' u', (k', u') ∈ [("first", "http://example.org/1")] →
            ∃ v, strict_URL u' = Returned v)
  ∧ strict_URL "http://[" = Raised ValueError
  ∧ _to_url_multidict strict_URL
      ([("first", "http://example.org/1")] ++ ("next", "http://[")
         :: [("last", "http://example.org/3")])
    = Raised ValueError.
Proof.
  assert (Hok : ∀ k' u', (k', u') ∈ [("first", "http://example.org/1")] →
                         ∃ v, strict_URL u' = Returned v).
  { intros k' u' Hin. apply list_elem_of_singleton in Hin as [= -> ->].
    eexists. reflexivity. }
  split_and!; [exact Hok|reflexivity|].
  exact (url_multidict_first_failure strict_URL
           [("first", "http://example.org/1")] [("last", "http://example.org/3")]
           "next" "http://[" ValueError Hok eq_refl).
Defined.
